(** * Card authentication flow, wallet checksum and the ETH sign-message
      back controller of the X1 wallet firmware

    A shallow embedding of
    - [auth_card.c]: the host-driven card authentication flow
      ([card_auth_handler] and its query handlers),
    - [wallet.h]: the wallet record and its checksum interface,
    - [sign_messgae_controller_b_eth.c]: the back/cancel controller of the
      ETH sign-message flow,
    followed by the properties proved about them.

    The firmware talks to its surroundings through calls whose bodies live
    outside these files (event getter, screens, USB, protobuf codec, flow
    status cell).  They are modelled by a [world]: the flow-status cell, the
    script of events [get_events] is going to return, and the log of calls
    made so far. *)

From Stdlib Require Import ZArith List String Ascii Bool Lia DecimalString.
From Stdlib Require Import Strings.Byte.
Import ListNotations.
Local Open Scope Z_scope.
Local Open Scope string_scope.

(* ===================================================================== *)
(** ** Data model of [auth_card.c]                                         *)
(* ===================================================================== *)

(** Return codes of the manager application used by the flow. *)
Inductive manager_error_code_t : Type :=
| MANAGER_TASK_SUCCESS
| MANAGER_TASK_INVALID_ARGS
| MANAGER_TASK_INVALID_STATE
| MANAGER_TASK_DECODING_FAILED
| MANAGER_TASK_ENCODING_FAILED
| MANAGER_TASK_UNKNOWN_QUERY_REQUEST
| MANAGER_TASK_P0_ABORT_OCCURED
| MANAGER_TASK_INVALID_DEFAULT.

Definition manager_error_code_eqb (a b : manager_error_code_t) : bool :=
  match a, b with
  | MANAGER_TASK_SUCCESS, MANAGER_TASK_SUCCESS
  | MANAGER_TASK_INVALID_ARGS, MANAGER_TASK_INVALID_ARGS
  | MANAGER_TASK_INVALID_STATE, MANAGER_TASK_INVALID_STATE
  | MANAGER_TASK_DECODING_FAILED, MANAGER_TASK_DECODING_FAILED
  | MANAGER_TASK_ENCODING_FAILED, MANAGER_TASK_ENCODING_FAILED
  | MANAGER_TASK_UNKNOWN_QUERY_REQUEST, MANAGER_TASK_UNKNOWN_QUERY_REQUEST
  | MANAGER_TASK_P0_ABORT_OCCURED, MANAGER_TASK_P0_ABORT_OCCURED
  | MANAGER_TASK_INVALID_DEFAULT, MANAGER_TASK_INVALID_DEFAULT => true
  | _, _ => false
  end.

(** Values of the process-wide flow-status cell during card
    authentication. *)
Inductive manager_auth_card_status_t : Type :=
| MANAGER_AUTH_CARD_STATUS_INIT
| MANAGER_AUTH_CARD_STATUS_USER_CONFIRMED
| MANAGER_AUTH_CARD_STATUS_SERIAL_SIGNED
| MANAGER_AUTH_CARD_STATUS_CHALLENGE_SIGNED
| MANAGER_AUTH_CARD_STATUS_PAIRING_DONE.

Definition manager_auth_card_status_eqb
  (a b : manager_auth_card_status_t) : bool :=
  match a, b with
  | MANAGER_AUTH_CARD_STATUS_INIT, MANAGER_AUTH_CARD_STATUS_INIT
  | MANAGER_AUTH_CARD_STATUS_USER_CONFIRMED,
    MANAGER_AUTH_CARD_STATUS_USER_CONFIRMED
  | MANAGER_AUTH_CARD_STATUS_SERIAL_SIGNED,
    MANAGER_AUTH_CARD_STATUS_SERIAL_SIGNED
  | MANAGER_AUTH_CARD_STATUS_CHALLENGE_SIGNED,
    MANAGER_AUTH_CARD_STATUS_CHALLENGE_SIGNED
  | MANAGER_AUTH_CARD_STATUS_PAIRING_DONE,
    MANAGER_AUTH_CARD_STATUS_PAIRING_DONE => true
  | _, _ => false
  end.

(** Discriminant [which_request] of a manager query: the card
    authentication family, zero (as left by [MANAGER_QUERY_INIT_ZERO]) or
    the tag of another family. *)
Inductive manager_query_tag : Type :=
| MANAGER_QUERY_NONE
| MANAGER_QUERY_AUTH_CARD_TAG
| MANAGER_QUERY_OTHER_TAG.

(** Discriminant [auth_card.which_request]: the three sub-requests of the
    family, or any other value (the [default] branch of the dispatch). *)
Inductive manager_auth_card_request_tag : Type :=
| MANAGER_AUTH_CARD_REQUEST_INITIATE_TAG
| MANAGER_AUTH_CARD_REQUEST_CHALLENGE_TAG
| MANAGER_AUTH_CARD_REQUEST_RESULT_TAG
| MANAGER_AUTH_CARD_REQUEST_OTHER_TAG.

Record manager_auth_card_initiate_request_t : Type := {
  has_card_index : bool;
  card_index : Z;
  has_pair_card : bool;
  pair_card : bool
}.

Record manager_auth_card_result_request_t : Type := {
  verified : bool
}.

(** The request union is kept as a record with one field per member: every
    handler reads the member of its own sub-request. *)
Record manager_auth_card_request_t : Type := {
  auth_card_which_request : manager_auth_card_request_tag;
  initiate : manager_auth_card_initiate_request_t;
  result : manager_auth_card_result_request_t
}.

Record manager_query_t : Type := {
  which_request : manager_query_tag;
  auth_card : manager_auth_card_request_t
}.

(** Discriminant [which_response]; [MANAGER_AUTH_CARD_RESPONSE_NONE] is the
    value 0 of a zero-initialised response. *)
Inductive manager_auth_card_response_tag : Type :=
| MANAGER_AUTH_CARD_RESPONSE_NONE
| MANAGER_AUTH_CARD_RESPONSE_SERIAL_SIGNATURE_TAG
| MANAGER_AUTH_CARD_RESPONSE_CHALLENGE_SIGNATURE_TAG
| MANAGER_AUTH_CARD_RESPONSE_FLOW_COMPLETE_TAG.

Record manager_auth_card_response_t : Type := {
  which_response : manager_auth_card_response_tag;
  flow_complete_dummy_field : Z
}.

Definition MANAGER_AUTH_CARD_RESPONSE_INIT_ZERO : manager_auth_card_response_t :=
  {| which_response := MANAGER_AUTH_CARD_RESPONSE_NONE;
     flow_complete_dummy_field := 0 |}.

Record manager_result_t : Type := {
  result_which_response : manager_query_tag;
  result_auth_card : manager_auth_card_response_t
}.

Record auth_card_screen_ctx_t : Type := {
  heading : string;            (* char heading[30]  *)
  message : string;            (* char message[100] *)
  acceptable_cards : Z;        (* uint8_t *)
  pair_card_required : bool
}.

Record auth_card_data_t : Type := {
  query : manager_query_t;
  ctx : auth_card_screen_ctx_t
}.

Record usb_event_t : Type := {
  flag : bool;
  p_msg : list byte            (* msg_size is its length *)
}.

Record evt_status_t : Type := {
  p0_event_flag : bool;        (* p0_event.flag *)
  usb_event : usb_event_t
}.

Inductive event_config_t : Type := EVENT_CONFIG_NFC | EVENT_CONFIG_USB.

(* ===================================================================== *)
(** ** Format strings and [snprintf]                                       *)
(* ===================================================================== *)

(** A format string is a sequence of literal pieces and [%d] directives. *)
Inductive fmt_item : Type :=
| Lit (s : string)
| Pd.

Definition format_string : Type := list fmt_item.

Definition decimal (z : Z) : string := NilZero.string_of_int (Z.to_int z).

Fixpoint render (f : format_string) (args : list Z) : string :=
  match f with
  | [] => ""
  | Lit s :: f' => s ++ render f' args
  | Pd :: f' =>
      match args with
      | a :: args' => decimal a ++ render f' args'
      | [] => render f' []
      end
  end.

(** [snprintf(buf, size, fmt, ...)]: at most [size - 1] characters are
    stored. *)
Definition snprintf (size : nat) (f : format_string) (args : list Z) : string :=
  substring 0 (size - 1) (render f args).

Definition to_uint8 (z : Z) : Z := z mod 256.

(* ===================================================================== *)
(** ** The surroundings                                                    *)
(* ===================================================================== *)

(** Constants, tables and codec routines used by [auth_card.c] and declared
    in headers that are not part of the verified files. *)
Class Platform : Type := {
  ACCEPTABLE_CARDS_ALL : Z;
  encode_card_number : Z -> Z;
  UI_TEXT_TAP_CARD : format_string;
  ui_text_tap_a_card : format_string;
  UI_TEXT_PLACE_CARD_TILL_BEEP : format_string;
  ui_text_card_authentication_failed : string;
  ui_text_card_authentication_success : string;
  MANAGER_AUTH_CARD_RESPONSE_SIZE : nat;
  (** [decode_manager_query(p_msg, msg_size, &query)]: [None] is [false]. *)
  decode_manager_query : list byte -> option manager_query_t;
  (** [encode_manager_result(&result, buffer, sizeof(buffer), &written)]:
      the bytes written, [None] is [false]. *)
  encode_manager_result : manager_result_t -> nat -> option (list byte)
}.

(** Calls that leave the module, in the order they are made. *)
Inductive call_t : Type :=
| Call_core_status_set_flow_status (s : manager_auth_card_status_t)
| Call_instruction_scr_init (msg head : string)
| Call_delay_scr_init (text : string)
| Call_nfc_en_select_card_task
| Call_get_events (cfg : event_config_t) (returned : evt_status_t)
| Call_usb_send_msg (bytes : list byte)
| Call_usb_clear_event.

Record world : Type := {
  flow_status : manager_auth_card_status_t;
  pending : list evt_status_t;
  calls : list call_t
}.

(** What a wait returns when nothing else happens within
    [MAX_INACTIVITY_TIMEOUT]: the inactivity (P0) event alone. *)
Definition inactivity_timeout : evt_status_t :=
  {| p0_event_flag := true;
     usb_event := {| flag := false; p_msg := [] |} |}.

(** A C call either returns, dereferences a NULL pointer, or (for the
    driver loop run with a bound on its iterations) is still running. *)
Inductive outcome (A : Type) : Type :=
| Returns (a : A) (w : world)
| NullDeref (w : world)
| OutOfFuel (w : world).
Arguments Returns {A} a w.
Arguments NullDeref {A} w.
Arguments OutOfFuel {A} w.

Definition M (A : Type) : Type := world -> outcome A.

Definition ret {A} (a : A) : M A := fun w => Returns a w.

Definition bind {A B} (c : M A) (k : A -> M B) : M B :=
  fun w =>
    match c w with
    | Returns a w' => k a w'
    | NullDeref w' => NullDeref w'
    | OutOfFuel w' => OutOfFuel w'
    end.

Declare Scope c_scope.
Delimit Scope c_scope with c.
Notation "'let*' x ':=' c 'in' k" := (bind c (fun x => k))
  (at level 10, x pattern, c at level 100, k at level 200) : c_scope.
Notation "c ';;' k" := (bind c (fun _ => k))
  (at level 100, k at level 200, right associativity) : c_scope.

Definition log (c : call_t) : M unit :=
  fun w => Returns tt {| flow_status := flow_status w;
                         pending := pending w;
                         calls := calls w ++ [c] |}.

Definition core_status_get_flow_status : M manager_auth_card_status_t :=
  fun w => Returns (flow_status w) w.

Definition core_status_set_flow_status (s : manager_auth_card_status_t) : M unit :=
  fun w => Returns tt {| flow_status := s;
                         pending := pending w;
                         calls := calls w ++ [Call_core_status_set_flow_status s] |}.

(** [get_events(cfg, MAX_INACTIVITY_TIMEOUT)] hands out the next event of
    the script, the inactivity timeout once the script is exhausted. *)
Definition get_events (cfg : event_config_t) : M evt_status_t :=
  fun w =>
    let e := hd inactivity_timeout (pending w) in
    Returns e {| flow_status := flow_status w;
                 pending := tl (pending w);
                 calls := calls w ++ [Call_get_events cfg e] |}.

Definition instruction_scr_init (msg head : string) : M unit :=
  log (Call_instruction_scr_init msg head).
Definition delay_scr_init (text : string) : M unit :=
  log (Call_delay_scr_init text).
Definition nfc_en_select_card_task : M unit := log Call_nfc_en_select_card_task.
Definition usb_send_msg (bytes : list byte) : M unit := log (Call_usb_send_msg bytes).
Definition usb_clear_event : M unit := log Call_usb_clear_event.

(** Reading or writing through a pointer: [None] is NULL. *)
Definition deref {A} (p : option A) : M A :=
  fun w => match p with Some a => Returns a w | None => NullDeref w end.

Definition is_null {A} (p : option A) : bool :=
  match p with Some _ => false | None => true end.

(* ===================================================================== *)
(** ** The functions of [auth_card.c]                                      *)
(* ===================================================================== *)

Definition CHALLENGE_SIZE : nat := 32.

Definition SIGN_SERIAL_BEEP_COUNT (pair_card_required : bool) : Z :=
  if pair_card_required then 3 else 2.
Definition SIGN_CHALLENGE_BEEP_COUNT (pair_card_required : bool) : Z :=
  if pair_card_required then 2 else 1.

Definition set_message (m : string) (c : auth_card_screen_ctx_t) : auth_card_screen_ctx_t :=
  {| heading := heading c; message := m;
     acceptable_cards := acceptable_cards c;
     pair_card_required := pair_card_required c |}.
Definition set_heading (h : string) (c : auth_card_screen_ctx_t) : auth_card_screen_ctx_t :=
  {| heading := h; message := message c;
     acceptable_cards := acceptable_cards c;
     pair_card_required := pair_card_required c |}.
Definition set_acceptable_cards (a : Z) (c : auth_card_screen_ctx_t) : auth_card_screen_ctx_t :=
  {| heading := heading c; message := message c;
     acceptable_cards := a;
     pair_card_required := pair_card_required c |}.
Definition set_pair_card_required (b : bool) (c : auth_card_screen_ctx_t) : auth_card_screen_ctx_t :=
  {| heading := heading c; message := message c;
     acceptable_cards := acceptable_cards c;
     pair_card_required := b |}.
Definition set_ctx (c : auth_card_screen_ctx_t) (d : auth_card_data_t) : auth_card_data_t :=
  {| query := query d; ctx := c |}.
Definition set_query (q : manager_query_t) (d : auth_card_data_t) : auth_card_data_t :=
  {| query := q; ctx := ctx d |}.

(** A handler is called with two pointers; it returns its code together
    with what the two pointers point to afterwards. *)
Definition handled : Type :=
  (manager_error_code_t * option auth_card_data_t
   * option manager_auth_card_response_t)%type.

Section AuthCard.
Context {P : Platform}.
Local Open Scope c_scope.

Definition decode_and_verify_auth_card_query_if_usb_evt
  (usb_evt : option usb_event_t) (query_out : option manager_query_t)
  : manager_error_code_t * option manager_query_t :=
  match usb_evt, query_out with
  | Some evt, Some _ =>
      if negb (flag evt) then (MANAGER_TASK_SUCCESS, query_out)
      else
        match decode_manager_query (p_msg evt) with
        | None => (MANAGER_TASK_DECODING_FAILED, query_out)
        | Some q =>
            match which_request q with
            | MANAGER_QUERY_AUTH_CARD_TAG => (MANAGER_TASK_SUCCESS, Some q)
            | _ => (MANAGER_TASK_UNKNOWN_QUERY_REQUEST, query_out)
            end
        end
  | _, _ => (MANAGER_TASK_INVALID_ARGS, query_out)
  end.

Definition send_auth_card_response
  (resp : option manager_auth_card_response_t) : M manager_error_code_t :=
  match resp with
  | None => ret MANAGER_TASK_INVALID_ARGS
  | Some r =>
      match which_response r with
      | MANAGER_AUTH_CARD_RESPONSE_NONE => ret MANAGER_TASK_INVALID_ARGS
      | _ =>
          let result := {| result_which_response := MANAGER_QUERY_AUTH_CARD_TAG;
                           result_auth_card := r |} in
          match encode_manager_result result
                  (MANAGER_AUTH_CARD_RESPONSE_SIZE + 4)%nat with
          | None => ret MANAGER_TASK_ENCODING_FAILED
          | Some buffer => usb_send_msg buffer ;; ret MANAGER_TASK_SUCCESS
          end
      end
  end.

Definition prepare_card_auth_context (auth_card_data : auth_card_data_t)
  : auth_card_data_t :=
  let req := initiate (auth_card (query auth_card_data)) in
  let c := set_acceptable_cards (to_uint8 ACCEPTABLE_CARDS_ALL)
             (ctx auth_card_data) in
  let c :=
    if has_card_index req then
      set_heading (snprintf 30 UI_TEXT_TAP_CARD [to_uint8 (card_index req)])
        (set_acceptable_cards (to_uint8 (encode_card_number (card_index req))) c)
    else
      set_heading (snprintf 30 ui_text_tap_a_card []) c in
  let c := set_pair_card_required false c in
  let c := if has_pair_card req then set_pair_card_required (pair_card req) c
           else c in
  let c := set_message
             (snprintf 100 UI_TEXT_PLACE_CARD_TILL_BEEP
                [SIGN_SERIAL_BEEP_COUNT (pair_card_required c)]) c in
  set_ctx c auth_card_data.

Definition handle_sign_card_serial
  (auth_card_data : option auth_card_data_t)
  (resp : option manager_auth_card_response_t) : M handled :=
  match auth_card_data, resp with
  | Some d, Some r =>
      instruction_scr_init (message (ctx d)) (heading (ctx d)) ;;
      nfc_en_select_card_task ;;
      let* status := get_events EVENT_CONFIG_NFC in
      if p0_event_flag status then
        ret (MANAGER_TASK_P0_ABORT_OCCURED, auth_card_data, resp)
      else
        core_status_set_flow_status MANAGER_AUTH_CARD_STATUS_SERIAL_SIGNED ;;
        let d' := set_ctx
                    (set_message
                       (snprintf 100 UI_TEXT_PLACE_CARD_TILL_BEEP
                          [SIGN_CHALLENGE_BEEP_COUNT (pair_card_required (ctx d))])
                       (ctx d)) d in
        instruction_scr_init (message (ctx d')) (heading (ctx d')) ;;
        ret (MANAGER_TASK_SUCCESS, Some d',
             Some {| which_response :=
                       MANAGER_AUTH_CARD_RESPONSE_SERIAL_SIGNATURE_TAG;
                     flow_complete_dummy_field := flow_complete_dummy_field r |})
  | _, _ => ret (MANAGER_TASK_INVALID_ARGS, auth_card_data, resp)
  end.

Definition handle_sign_challenge
  (auth_card_data : option auth_card_data_t)
  (resp : option manager_auth_card_response_t) : M handled :=
  match auth_card_data, resp with
  | Some d, Some r =>
      nfc_en_select_card_task ;;
      let* status := get_events EVENT_CONFIG_NFC in
      if p0_event_flag status then
        ret (MANAGER_TASK_P0_ABORT_OCCURED, auth_card_data, resp)
      else
        core_status_set_flow_status MANAGER_AUTH_CARD_STATUS_CHALLENGE_SIGNED ;;
        let d' :=
          if pair_card_required (ctx d) then
            set_ctx (set_message
                       (snprintf 100 UI_TEXT_PLACE_CARD_TILL_BEEP [1]) (ctx d)) d
          else
            set_ctx (set_message (snprintf 100 [Lit "..."] []) (ctx d)) d in
        instruction_scr_init (message (ctx d')) (heading (ctx d')) ;;
        ret (MANAGER_TASK_SUCCESS, Some d',
             Some {| which_response :=
                       MANAGER_AUTH_CARD_RESPONSE_CHALLENGE_SIGNATURE_TAG;
                     flow_complete_dummy_field := flow_complete_dummy_field r |})
  | _, _ => ret (MANAGER_TASK_INVALID_ARGS, auth_card_data, resp)
  end.

Definition handle_auth_card_initiate_query
  (auth_card_data : option auth_card_data_t)
  (resp : option manager_auth_card_response_t) : M handled :=
  match auth_card_data, resp with
  | Some d, Some _ =>
      let* st := core_status_get_flow_status in
      match st with
      | MANAGER_AUTH_CARD_STATUS_INIT =>
          core_status_set_flow_status MANAGER_AUTH_CARD_STATUS_USER_CONFIRMED ;;
          handle_sign_card_serial (Some (prepare_card_auth_context d)) resp
      | _ => ret (MANAGER_TASK_INVALID_STATE, auth_card_data, resp)
      end
  | _, _ => ret (MANAGER_TASK_INVALID_ARGS, auth_card_data, resp)
  end.

Definition handle_auth_card_challenge_query
  (auth_card_data : option auth_card_data_t)
  (resp : option manager_auth_card_response_t) : M handled :=
  match auth_card_data, resp with
  | Some _, Some _ =>
      let* st := core_status_get_flow_status in
      match st with
      | MANAGER_AUTH_CARD_STATUS_SERIAL_SIGNED =>
          handle_sign_challenge auth_card_data resp
      | _ => ret (MANAGER_TASK_INVALID_STATE, auth_card_data, resp)
      end
  | _, _ => ret (MANAGER_TASK_INVALID_ARGS, auth_card_data, resp)
  end.

(** [resp->which_response = FLOW_COMPLETE_TAG; resp->flow_complete.dummy_field = 0;] *)
Definition write_flow_complete
  (resp : option manager_auth_card_response_t)
  : M (option manager_auth_card_response_t) :=
  let* _ := deref resp in
  ret (Some {| which_response := MANAGER_AUTH_CARD_RESPONSE_FLOW_COMPLETE_TAG;
               flow_complete_dummy_field := 0 |}).

Definition handle_auth_card_result_query
  (auth_card_data : option auth_card_data_t)
  (resp : option manager_auth_card_response_t) : M handled :=
  if is_null auth_card_data && negb (is_null resp) then
    ret (MANAGER_TASK_INVALID_ARGS, auth_card_data, resp)
  else
    let* d := deref auth_card_data in
    let result := verified (result (auth_card (query d))) in
    let* st := core_status_get_flow_status in
    match st with
    | MANAGER_AUTH_CARD_STATUS_SERIAL_SIGNED =>
        if negb result then
          let* resp' := write_flow_complete resp in
          delay_scr_init ui_text_card_authentication_failed ;;
          ret (MANAGER_TASK_SUCCESS, auth_card_data, resp')
        else ret (MANAGER_TASK_INVALID_STATE, auth_card_data, resp)
    | MANAGER_AUTH_CARD_STATUS_CHALLENGE_SIGNED =>
        if negb result then
          let* resp' := write_flow_complete resp in
          delay_scr_init ui_text_card_authentication_failed ;;
          ret (MANAGER_TASK_SUCCESS, auth_card_data, resp')
        else
          core_status_set_flow_status MANAGER_AUTH_CARD_STATUS_PAIRING_DONE ;;
          let* resp' := write_flow_complete resp in
          delay_scr_init ui_text_card_authentication_success ;;
          ret (MANAGER_TASK_SUCCESS, auth_card_data, resp')
    | _ => ret (MANAGER_TASK_INVALID_STATE, auth_card_data, resp)
    end.

Definition handle_auth_card_query
  (auth_card_data : option auth_card_data_t)
  (resp : option manager_auth_card_response_t) : M handled :=
  match auth_card_data, resp with
  | Some d, Some _ =>
      match auth_card_which_request (auth_card (query d)) with
      | MANAGER_AUTH_CARD_REQUEST_INITIATE_TAG =>
          handle_auth_card_initiate_query auth_card_data resp
      | MANAGER_AUTH_CARD_REQUEST_CHALLENGE_TAG =>
          handle_auth_card_challenge_query auth_card_data resp
      | MANAGER_AUTH_CARD_REQUEST_RESULT_TAG =>
          handle_auth_card_result_query auth_card_data resp
      | MANAGER_AUTH_CARD_REQUEST_OTHER_TAG =>
          ret (MANAGER_TASK_UNKNOWN_QUERY_REQUEST, auth_card_data, resp)
      end
  | _, _ => ret (MANAGER_TASK_INVALID_ARGS, auth_card_data, resp)
  end.

End AuthCard.

Section AuthCardDriver.
Context {P : Platform}.
Local Open Scope c_scope.

(** The [do { ... } while (...)] loop of [card_auth_handler], over its two
    locals; [fuel] bounds the number of iterations.  Every [return] of the
    C function inside the loop ends the computation with [ret tt]. *)
Fixpoint card_auth_loop (fuel : nat) (auth_card_data : auth_card_data_t)
  (resp : manager_auth_card_response_t) : M unit :=
  match fuel with
  | O => fun w => OutOfFuel w
  | S fuel' =>
      let* (code, pd, pr) :=
        handle_auth_card_query (Some auth_card_data) (Some resp) in
      if negb (manager_error_code_eqb MANAGER_TASK_SUCCESS code) then
        usb_clear_event ;; ret tt
      else
        let* auth_card_data := deref pd in
        let* resp := deref pr in
        let* resp :=
          match which_response resp with
          | MANAGER_AUTH_CARD_RESPONSE_NONE => ret resp
          | _ => send_auth_card_response (Some resp) ;;
                 ret MANAGER_AUTH_CARD_RESPONSE_INIT_ZERO   (* memzero *)
          end in
        let* st := core_status_get_flow_status in
        if manager_auth_card_status_eqb MANAGER_AUTH_CARD_STATUS_PAIRING_DONE st
        then ret tt
        else
          let* evt_status := get_events EVENT_CONFIG_USB in
          let (code, pq) :=
            decode_and_verify_auth_card_query_if_usb_evt
              (Some (usb_event evt_status)) (Some (query auth_card_data)) in
          if negb (manager_error_code_eqb MANAGER_TASK_SUCCESS code) then
            usb_clear_event ;; ret tt
          else
            let* q := deref pq in
            let auth_card_data := set_query q auth_card_data in
            let* st := core_status_get_flow_status in
            if negb (p0_event_flag evt_status)
               || negb (manager_auth_card_status_eqb
                          MANAGER_AUTH_CARD_STATUS_PAIRING_DONE st)
            then card_auth_loop fuel' auth_card_data resp
            else ret tt                                  (* HANDLE_P0_EVENTS() *)
  end.

(** [card_auth_handler(query)] for a non-NULL [query] (the function asserts
    it). *)
Definition card_auth_handler (fuel : nat) (query : manager_query_t) : M unit :=
  match auth_card_which_request (auth_card query) with
  | MANAGER_AUTH_CARD_REQUEST_INITIATE_TAG =>
      let resp := MANAGER_AUTH_CARD_RESPONSE_INIT_ZERO in
      let auth_card_data :=
        {| query := query;
           ctx := {| heading := ""; message := "";
                     acceptable_cards := to_uint8 ACCEPTABLE_CARDS_ALL;
                     pair_card_required := false |} |} in
      core_status_set_flow_status MANAGER_AUTH_CARD_STATUS_INIT ;;
      card_auth_loop fuel auth_card_data resp
  | _ => ret tt
  end.

End AuthCardDriver.

Section AuthCardObservations.
Context {P : Platform}.

(** What [send_auth_card_response(&resp)] adds to the call log: the encoded
    result when the response has a discriminant and the encoding fits. *)
Definition response_calls (r : manager_auth_card_response_t) : list call_t :=
  match which_response r with
  | MANAGER_AUTH_CARD_RESPONSE_NONE => []
  | _ =>
      match encode_manager_result
              {| result_which_response := MANAGER_QUERY_AUTH_CARD_TAG;
                 result_auth_card := r |}
              (MANAGER_AUTH_CARD_RESPONSE_SIZE + 4)%nat with
      | Some b => [Call_usb_send_msg b]
      | None => []
      end
  end.

(** The response buffer of the driver after the sending step of an
    iteration. *)
Definition after_send (r : manager_auth_card_response_t)
  : manager_auth_card_response_t :=
  match which_response r with
  | MANAGER_AUTH_CARD_RESPONSE_NONE => r
  | _ => MANAGER_AUTH_CARD_RESPONSE_INIT_ZERO
  end.

End AuthCardObservations.

(** *** Reading a call log *)

(** The byte strings handed to [usb_send_msg], in order. *)
Fixpoint sent_messages (l : list call_t) : list (list byte) :=
  match l with
  | [] => []
  | Call_usb_send_msg b :: l' => b :: sent_messages l'
  | _ :: l' => sent_messages l'
  end.

(** The values written to the flow-status cell, in order. *)
Fixpoint status_writes (l : list call_t) : list manager_auth_card_status_t :=
  match l with
  | [] => []
  | Call_core_status_set_flow_status s :: l' => s :: status_writes l'
  | _ :: l' => status_writes l'
  end.

(** The number of iterations of the driver loop that were started is the
    number of waits with the USB configuration, plus one. *)
Fixpoint usb_waits (l : list call_t) : nat :=
  match l with
  | [] => 0
  | Call_get_events EVENT_CONFIG_USB _ :: l' => S (usb_waits l')
  | _ :: l' => usb_waits l'
  end.

(** The response written on both outcomes of a result request, and the
    result message [send_auth_card_response] wraps a response in. *)
Definition flow_complete : manager_auth_card_response_t :=
  {| which_response := MANAGER_AUTH_CARD_RESPONSE_FLOW_COMPLETE_TAG;
     flow_complete_dummy_field := 0 |}.

Definition serial_signature : manager_auth_card_response_t :=
  {| which_response := MANAGER_AUTH_CARD_RESPONSE_SERIAL_SIGNATURE_TAG;
     flow_complete_dummy_field := 0 |}.

Definition challenge_signature : manager_auth_card_response_t :=
  {| which_response := MANAGER_AUTH_CARD_RESPONSE_CHALLENGE_SIGNATURE_TAG;
     flow_complete_dummy_field := 0 |}.

Definition as_result (r : manager_auth_card_response_t) : manager_result_t :=
  {| result_which_response := MANAGER_QUERY_AUTH_CARD_TAG;
     result_auth_card := r |}.

(** The world after further calls [l], with flow status [st] and the
    events [evs] still to come. *)
Definition after_calls (w : world) (st : manager_auth_card_status_t)
  (evs : list evt_status_t) (l : list call_t) : world :=
  {| flow_status := st; pending := evs; calls := calls w ++ l |}.

(* ===================================================================== *)
(** ** A reference platform for concrete runs                              *)
(* ===================================================================== *)

(** Sample constants and a small byte codec, used to run the flow on
    concrete inputs.  Query layout: family byte ([x01] card authentication),
    sub-request byte ([x01] initiate, [x02] challenge, [x03] result) and the
    fields of the sub-request, one byte each. *)
Definition bool_of_byte (b : byte) : bool := negb (Byte.eqb b x00).

Definition mk_query (page : manager_query_tag) (t : manager_auth_card_request_tag)
  (hc : bool) (ci : Z) (hp pc v : bool) : manager_query_t :=
  {| which_request := page;
     auth_card :=
       {| auth_card_which_request := t;
          initiate := {| has_card_index := hc; card_index := ci;
                         has_pair_card := hp; pair_card := pc |};
          result := {| verified := v |} |} |}.

Definition sample_decode (msg : list byte) : option manager_query_t :=
  match msg with
  | [x01; x01; hc; ci; hp; pc] =>
      Some (mk_query MANAGER_QUERY_AUTH_CARD_TAG
              MANAGER_AUTH_CARD_REQUEST_INITIATE_TAG
              (bool_of_byte hc) (Z.of_N (Byte.to_N ci))
              (bool_of_byte hp) (bool_of_byte pc) false)
  | [x01; x02] =>
      Some (mk_query MANAGER_QUERY_AUTH_CARD_TAG
              MANAGER_AUTH_CARD_REQUEST_CHALLENGE_TAG false 0 false false false)
  | [x01; x03; v] =>
      Some (mk_query MANAGER_QUERY_AUTH_CARD_TAG
              MANAGER_AUTH_CARD_REQUEST_RESULT_TAG false 0 false false
              (bool_of_byte v))
  | [x01; _] =>
      Some (mk_query MANAGER_QUERY_AUTH_CARD_TAG
              MANAGER_AUTH_CARD_REQUEST_OTHER_TAG false 0 false false false)
  | [x02] =>
      Some (mk_query MANAGER_QUERY_OTHER_TAG
              MANAGER_AUTH_CARD_REQUEST_OTHER_TAG false 0 false false false)
  | _ => None
  end.

Definition sample_encode (r : manager_result_t) (size : nat) : option (list byte) :=
  let bytes :=
    [match result_which_response r with
     | MANAGER_QUERY_NONE => x00
     | MANAGER_QUERY_AUTH_CARD_TAG => x01
     | MANAGER_QUERY_OTHER_TAG => x02
     end;
     match which_response (result_auth_card r) with
     | MANAGER_AUTH_CARD_RESPONSE_NONE => x00
     | MANAGER_AUTH_CARD_RESPONSE_SERIAL_SIGNATURE_TAG => x01
     | MANAGER_AUTH_CARD_RESPONSE_CHALLENGE_SIGNATURE_TAG => x02
     | MANAGER_AUTH_CARD_RESPONSE_FLOW_COMPLETE_TAG => x03
     end] in
  if (List.length bytes <=? size)%nat then Some bytes else None.

Definition sample_platform : Platform :=
  {| ACCEPTABLE_CARDS_ALL := 15;
     encode_card_number := fun x => Z.shiftl 1 (x - 1);
     UI_TEXT_TAP_CARD := [Lit "Tap card #"; Pd];
     ui_text_tap_a_card := [Lit "Tap a card"];
     UI_TEXT_PLACE_CARD_TILL_BEEP := [Lit "Place card till "; Pd; Lit " beep"];
     ui_text_card_authentication_failed := "Card authentication failed";
     ui_text_card_authentication_success := "Card authenticated";
     MANAGER_AUTH_CARD_RESPONSE_SIZE := 8;
     decode_manager_query := sample_decode;
     encode_manager_result := sample_encode |}.

(** The same platform with an encoder that always fails. *)
Definition sample_platform_no_encoder : Platform :=
  {| ACCEPTABLE_CARDS_ALL := 15;
     encode_card_number := fun x => Z.shiftl 1 (x - 1);
     UI_TEXT_TAP_CARD := [Lit "Tap card #"; Pd];
     ui_text_tap_a_card := [Lit "Tap a card"];
     UI_TEXT_PLACE_CARD_TILL_BEEP := [Lit "Place card till "; Pd; Lit " beep"];
     ui_text_card_authentication_failed := "Card authentication failed";
     ui_text_card_authentication_success := "Card authenticated";
     MANAGER_AUTH_CARD_RESPONSE_SIZE := 8;
     decode_manager_query := sample_decode;
     encode_manager_result := fun _ _ => None |}.

(** Events of a script. *)
Definition nfc_evt : evt_status_t :=
  {| p0_event_flag := false; usb_event := {| flag := false; p_msg := [] |} |}.
Definition usb_evt (msg : list byte) : evt_status_t :=
  {| p0_event_flag := false; usb_event := {| flag := true; p_msg := msg |} |}.
Definition p0_evt : evt_status_t := inactivity_timeout.

Definition start_world (st : manager_auth_card_status_t)
  (script : list evt_status_t) : world :=
  {| flow_status := st; pending := script; calls := [] |}.

Definition initiate_query (hc : bool) (ci : Z) (hp pc : bool) : manager_query_t :=
  mk_query MANAGER_QUERY_AUTH_CARD_TAG MANAGER_AUTH_CARD_REQUEST_INITIATE_TAG
    hc ci hp pc false.
Definition challenge_query : manager_query_t :=
  mk_query MANAGER_QUERY_AUTH_CARD_TAG MANAGER_AUTH_CARD_REQUEST_CHALLENGE_TAG
    false 0 false false false.
Definition result_query (v : bool) : manager_query_t :=
  mk_query MANAGER_QUERY_AUTH_CARD_TAG MANAGER_AUTH_CARD_REQUEST_RESULT_TAG
    false 0 false false v.

(* ===================================================================== *)
(** ** [wallet.h]: the wallet record and its checksum                      *)
(* ===================================================================== *)

Definition BLOCK_SIZE : nat := 32.
Definition NONCE_SIZE : nat := 16.
Definition WALLET_MAC_SIZE : nat := 16.
Definition CHECKSUM_SIZE : nat := 4.
Definition NAME_SIZE : nat := 16.
Definition WALLET_ID_SIZE : nat := 32.
Definition KEY_SIZE : nat := 32.

(** [uint8_t checksum[CHECKSUM_SIZE]] *)
Definition checksum_t : Type := (byte * byte * byte * byte)%type.

Record Wallet : Type := {
  wallet_name : list byte;
  wallet_info : byte;
  password_double_hash : list byte;
  wallet_share_with_mac_and_nonce : list byte;
  arbitrary_data_share : list byte;
  number_of_mnemonics : byte;
  minimum_number_of_shares : byte;
  total_number_of_shares : byte;
  arbitrary_data_size : byte;
  xcor : byte;
  checksum : checksum_t;
  key : list byte;
  beneficiary_key : list byte;
  iv_for_beneficiary_key : list byte;
  wallet_id : list byte
}.

(** The flag macros on [wallet_info]. *)
Definition WALLET_IS_PIN_SET (n : N) : N := N.land n 1.
Definition WALLET_SET_PIN (n : N) : N := N.lor n 1.
Definition WALLET_UNSET_PIN (n : N) : N := N.land n 254.
Definition WALLET_IS_PASSPHRASE_SET (n : N) : N := N.land (N.shiftr n 1) 1.
Definition WALLET_SET_PASSPHRASE (n : N) : N := N.lor n 2.
Definition WALLET_UNSET_PASSPHRASE (n : N) : N := N.land n 253.
Definition WALLET_IS_ARBITRARY_DATA (n : N) : N := N.land (N.shiftr n 2) 1.
Definition WALLET_SET_ARBITRARY_DATA (n : N) : N := N.lor n 4.
Definition WALLET_UNSET_ARBITRARY_DATA (n : N) : N := N.land n 251.

Definition byte_of_N (n : N) : byte :=
  match Byte.of_N (n mod 256) with Some b => b | None => x00 end.

Definition checksum_eqb (a b : checksum_t) : bool :=
  let '(a0, a1, a2, a3) := a in
  let '(b0, b1, b2, b3) := b in
  Byte.eqb a0 b0 && Byte.eqb a1 b1 && Byte.eqb a2 b2 && Byte.eqb a3 b3.

(** The two low bits of the last checksum byte read [01]. *)
Definition checksum_present (c : checksum_t) : bool :=
  let '(_, _, _, c3) := c in N.eqb (N.land (Byte.to_N c3) 3) 1.

Section WalletChecksum.
(** [sha256_Raw] of [sha2.h]: the digest of a byte string. *)
Variable sha256_Raw : list byte -> list byte.

(** The packed serialisation the header documents for the checksum:
    wallet_name | xcor | number_of_mnemonics | total_number_of_shares |
    wallet_share_with_mac_and_nonce | minimum_number_of_shares |
    wallet_info | key | wallet_id | arbitrary_data_share. *)
Definition checksum_input (w : Wallet) : list byte :=
  (wallet_name w ++ [xcor w] ++ [number_of_mnemonics w]
   ++ [total_number_of_shares w] ++ wallet_share_with_mac_and_nonce w
   ++ [minimum_number_of_shares w] ++ [wallet_info w] ++ key w
   ++ wallet_id w ++ arbitrary_data_share w)%list.

(** Modelled from the spec: the body of [calculate_checksum] ([wallet.c]) is
    not among the files; the header and the specification give the first 30
    bits of the SHA-256 digest of [checksum_input], with the last two bits
    set to [01]. *)
Definition calculate_checksum (w : Wallet) : checksum_t :=
  let h := sha256_Raw (checksum_input w) in
  (nth 0 h x00, nth 1 h x00, nth 2 h x00,
   byte_of_N (N.lor (N.land (Byte.to_N (nth 3 h x00)) 252) 1)).

(** Modelled from the spec: the body of [verify_checksum] ([wallet.c]) is
    not among the files; the specification has it return false on a NULL
    wallet, true when the checksum-present tag is unset, and otherwise
    compare the stored checksum with the recomputed one. *)
Definition verify_checksum (wallet : option Wallet) : bool :=
  match wallet with
  | None => false
  | Some w =>
      if checksum_present (checksum w)
      then checksum_eqb (calculate_checksum w) (checksum w)
      else true
  end.

End WalletChecksum.

(** A stand-in digest for concrete runs: 32 bytes, the first four taken
    from the length and the first bytes of the input. *)
Definition sample_digest (l : list byte) : list byte :=
  (byte_of_N (N.of_nat (List.length l)) :: nth 0 l x00 :: nth 1 l x00
   :: nth 2 l xff :: repeat x00 28)%list.

Definition sample_wallet (c : checksum_t) : Wallet :=
  {| wallet_name := repeat x41 NAME_SIZE;
     wallet_info := x01;
     password_double_hash := repeat x00 BLOCK_SIZE;
     wallet_share_with_mac_and_nonce :=
       repeat x07 (BLOCK_SIZE + NONCE_SIZE + WALLET_MAC_SIZE);
     arbitrary_data_share := repeat x00 512;
     number_of_mnemonics := x18;
     minimum_number_of_shares := x02;
     total_number_of_shares := x05;
     arbitrary_data_size := x00;
     xcor := x01;
     checksum := c;
     key := repeat x09 KEY_SIZE;
     beneficiary_key := repeat x00 16;
     iv_for_beneficiary_key := repeat x00 16;
     wallet_id := repeat x0a WALLET_ID_SIZE |}.

(* ===================================================================== *)
(** ** [sign_messgae_controller_b_eth.c]                                   *)
(* ===================================================================== *)

(** Values of [flow_level.level_three] in the ETH sign-message flow: the
    five steps the back controller names, and every other step. *)
Inductive sign_msg_step : Type :=
| SIGN_MSG_VERIFY_COIN_ETH
| SIGN_MSG_VERIFY_CONTRACT_ADDRESS_ETH
| SIGN_MSG_ENTER_PIN_ETH
| SIGN_MSG_ENTER_PASSPHRASE_ETH
| SIGN_MSG_CONFIRM_PASSPHRASE_ETH
| SIGN_MSG_OTHER_STEP_ETH.

Inductive reject_command : Type :=
| SIGN_MSG_START
| USER_REJECT_PIN_INPUT
| USER_REJECTED_PASSPHRASE_INPUT.

Record Wallet_credential_data : Type := {
  mnemonics : list (list byte);
  passphrase : list byte;
  password_single_hash : list byte
}.

(** The globals the controller touches. *)
Record firmware : Type := {
  level_three : sign_msg_step;            (* flow_level.level_three *)
  input_text : list byte;                 (* flow_level.screen_input.input_text *)
  next_event_flag : bool;                 (* counter.next_event_flag *)
  wallet_credential_data : Wallet_credential_data;
  rejections : list (reject_command * Z)  (* what was sent to the host *)
}.

(** [memzero(buf, sizeof(buf))] *)
Definition memzero (buf : list byte) : list byte := map (fun _ => x00) buf.

Definition all_zero (buf : list byte) : bool := forallb (Byte.eqb x00) buf.


(** Routines of other modules the controller calls; each may rewrite the
    globals. *)
Class Controllers : Type := {
  comm_reject_request : reject_command -> Z -> firmware -> firmware;
  reset_flow_level : firmware -> firmware
}.

Definition set_next_event_flag (b : bool) (s : firmware) : firmware :=
  {| level_three := level_three s; input_text := input_text s;
     next_event_flag := b;
     wallet_credential_data := wallet_credential_data s;
     rejections := rejections s |}.
Definition set_input_text (t : list byte) (s : firmware) : firmware :=
  {| level_three := level_three s; input_text := t;
     next_event_flag := next_event_flag s;
     wallet_credential_data := wallet_credential_data s;
     rejections := rejections s |}.
Definition set_level_three (l : sign_msg_step) (s : firmware) : firmware :=
  {| level_three := l; input_text := input_text s;
     next_event_flag := next_event_flag s;
     wallet_credential_data := wallet_credential_data s;
     rejections := rejections s |}.
Definition set_passphrase (p : list byte) (s : firmware) : firmware :=
  {| level_three := level_three s; input_text := input_text s;
     next_event_flag := next_event_flag s;
     wallet_credential_data :=
       {| mnemonics := mnemonics (wallet_credential_data s);
          passphrase := p;
          password_single_hash :=
            password_single_hash (wallet_credential_data s) |};
     rejections := rejections s |}.

Section SignMessageEth.
Context {C : Controllers}.

Definition sign_message_controller_b_eth (s : firmware) : firmware :=
  match level_three s with
  | SIGN_MSG_VERIFY_COIN_ETH =>
      let s := comm_reject_request SIGN_MSG_START 0 s in
      let s := reset_flow_level s in
      set_next_event_flag true s
  | SIGN_MSG_VERIFY_CONTRACT_ADDRESS_ETH =>
      let s := comm_reject_request SIGN_MSG_START 0 s in
      let s := reset_flow_level s in
      set_next_event_flag true s
  | SIGN_MSG_ENTER_PIN_ETH =>
      let s := comm_reject_request USER_REJECT_PIN_INPUT 0 s in
      let s := reset_flow_level s in
      let s := set_input_text (memzero (input_text s)) s in
      set_next_event_flag true s
  | SIGN_MSG_ENTER_PASSPHRASE_ETH =>
      let s := comm_reject_request USER_REJECTED_PASSPHRASE_INPUT 0 s in
      let s := reset_flow_level s in
      let s := set_input_text (memzero (input_text s)) s in
      set_next_event_flag true s
  | SIGN_MSG_CONFIRM_PASSPHRASE_ETH =>
      let s := set_passphrase
                 (memzero (passphrase (wallet_credential_data s))) s in
      set_level_three SIGN_MSG_ENTER_PASSPHRASE_ETH s
  | SIGN_MSG_OTHER_STEP_ETH => s
  end.

End SignMessageEth.

(** Stand-ins for concrete runs: the reject is recorded, the flow level is
    put back to its first step. *)
Definition sample_controllers : Controllers :=
  {| comm_reject_request := fun c a s =>
       {| level_three := level_three s; input_text := input_text s;
          next_event_flag := next_event_flag s;
          wallet_credential_data := wallet_credential_data s;
          rejections := (rejections s ++ [(c, a)])%list |};
     reset_flow_level := fun s => set_level_three SIGN_MSG_VERIFY_COIN_ETH s |}.

Definition sample_firmware (step : sign_msg_step) : firmware :=
  {| level_three := step;
     input_text := [x31; x32; x33; x34; x00];
     next_event_flag := false;
     wallet_credential_data :=
       {| mnemonics := [[x61; x62; x00]; [x63; x00; x00]];
          passphrase := [x70; x77; x00; x00];
          password_single_hash := [x5a; x5b; x5c; x5d] |};
     rejections := [] |}.





(* ===================================================================== *)
(** ** Reading outcomes and runs                                           *)
(* ===================================================================== *)

Definition outcome_world {A} (o : outcome A) : world :=
  match o with
  | Returns _ w => w
  | NullDeref w => w
  | OutOfFuel w => w
  end.

Definition is_null_deref {A} (o : outcome A) : bool :=
  match o with
  | NullDeref _ => true
  | _ => false
  end.

(** The order in which the flow writes the status values. *)
Definition status_chain : list manager_auth_card_status_t :=
  [MANAGER_AUTH_CARD_STATUS_INIT;
   MANAGER_AUTH_CARD_STATUS_USER_CONFIRMED;
   MANAGER_AUTH_CARD_STATUS_SERIAL_SIGNED;
   MANAGER_AUTH_CARD_STATUS_CHALLENGE_SIGNED;
   MANAGER_AUTH_CARD_STATUS_PAIRING_DONE].

(** The position of a status in [status_chain]. *)
Definition status_rank (s : manager_auth_card_status_t) : nat :=
  match s with
  | MANAGER_AUTH_CARD_STATUS_INIT => 0
  | MANAGER_AUTH_CARD_STATUS_USER_CONFIRMED => 1
  | MANAGER_AUTH_CARD_STATUS_SERIAL_SIGNED => 2
  | MANAGER_AUTH_CARD_STATUS_CHALLENGE_SIGNED => 3
  | MANAGER_AUTH_CARD_STATUS_PAIRING_DONE => 4
  end.

(** The instruction screens shown (message, heading), in order. *)
Fixpoint instruction_screens (l : list call_t) : list (string * string) :=
  match l with
  | [] => []
  | Call_instruction_scr_init m h :: l' => (m, h) :: instruction_screens l'
  | _ :: l' => instruction_screens l'
  end.

(* ===================================================================== *)
(** * Properties                                                           *)
(* ===================================================================== *)

(** Unfolding the call monad. *)
Ltac unfold_calls :=
  unfold instruction_scr_init, delay_scr_init, nfc_en_select_card_task,
    usb_send_msg, usb_clear_event in *;
  unfold bind, ret, log, deref, core_status_get_flow_status,
    core_status_set_flow_status, get_events in *;
  cbn beta iota in *.

Ltac world_fields := cbn [pending calls flow_status] in *.

Lemma status_eqb_eq a b :
  manager_auth_card_status_eqb a b = true <-> a = b.
Proof. destruct a, b; simpl; split; congruence. Qed.

Lemma error_code_eqb_eq a b :
  manager_error_code_eqb a b = true <-> a = b.
Proof. destruct a, b; simpl; split; congruence. Qed.

Section AuthCardHandlers.
Context {P : Platform}.

(** *** Argument checks *)

(** The handlers that test [NULL == auth_card_data || NULL == resp] reject
    a NULL argument without touching anything. *)
Lemma null_argument_rejected d r w :
  d = None \/ r = None ->
  handle_auth_card_initiate_query d r w
    = Returns (MANAGER_TASK_INVALID_ARGS, d, r) w
  /\ handle_auth_card_challenge_query d r w
    = Returns (MANAGER_TASK_INVALID_ARGS, d, r) w
  /\ handle_auth_card_query d r w
    = Returns (MANAGER_TASK_INVALID_ARGS, d, r) w
  /\ handle_sign_card_serial d r w
    = Returns (MANAGER_TASK_INVALID_ARGS, d, r) w
  /\ handle_sign_challenge d r w
    = Returns (MANAGER_TASK_INVALID_ARGS, d, r) w.
Proof.
  intros H. destruct d, r; destruct H; try discriminate;
    repeat split; reflexivity.
Qed.

(** The result handler rejects only the combination NULL data, non-NULL
    response. *)
Lemma result_null_data_rejected r w :
  handle_auth_card_result_query None (Some r) w
    = Returns (MANAGER_TASK_INVALID_ARGS, None, Some r) w.
Proof. reflexivity. Qed.

(** *** Out-of-order requests *)

Lemma initiate_query_outside_INIT d r w :
  flow_status w <> MANAGER_AUTH_CARD_STATUS_INIT ->
  handle_auth_card_initiate_query (Some d) (Some r) w
    = Returns (MANAGER_TASK_INVALID_STATE, Some d, Some r) w.
Proof.
  intros Hst. unfold handle_auth_card_initiate_query. unfold_calls.
  destruct (flow_status w); congruence.
Qed.

Lemma challenge_query_outside_SERIAL_SIGNED d r w :
  flow_status w <> MANAGER_AUTH_CARD_STATUS_SERIAL_SIGNED ->
  handle_auth_card_challenge_query (Some d) (Some r) w
    = Returns (MANAGER_TASK_INVALID_STATE, Some d, Some r) w.
Proof.
  intros Hst. unfold handle_auth_card_challenge_query. unfold_calls.
  destruct (flow_status w); congruence.
Qed.

(** C4: in every flow status other than INIT, an initiate request, whether
    it reaches its handler through the dispatch or directly, is answered
    with [MANAGER_TASK_INVALID_STATE]; the flow-status cell, the pending
    events, the call log, the auth-card data (query and context) and the
    response buffer are all as before. *)
Theorem C4_initiate_outside_INIT_is_invalid_state d r w :
  flow_status w <> MANAGER_AUTH_CARD_STATUS_INIT ->
  auth_card_which_request (auth_card (query d))
    = MANAGER_AUTH_CARD_REQUEST_INITIATE_TAG ->
  handle_auth_card_query (Some d) (Some r) w
    = Returns (MANAGER_TASK_INVALID_STATE, Some d, Some r) w
  /\ handle_auth_card_initiate_query (Some d) (Some r) w
    = Returns (MANAGER_TASK_INVALID_STATE, Some d, Some r) w.
Proof.
  intros Hst Htag. split.
  - unfold handle_auth_card_query. rewrite Htag.
    now apply initiate_query_outside_INIT.
  - now apply initiate_query_outside_INIT.
Qed.

(** *** The inbound query adapter *)

Lemma query_adapter_no_usb evt qo :
  flag evt = false ->
  decode_and_verify_auth_card_query_if_usb_evt (Some evt) (Some qo)
    = (MANAGER_TASK_SUCCESS, Some qo).
Proof.
  intros Hf. unfold decode_and_verify_auth_card_query_if_usb_evt.
  now rewrite Hf.
Qed.

Lemma query_adapter_decode_failed evt qo :
  flag evt = true -> decode_manager_query (p_msg evt) = None ->
  decode_and_verify_auth_card_query_if_usb_evt (Some evt) (Some qo)
    = (MANAGER_TASK_DECODING_FAILED, Some qo).
Proof.
  intros Hf Hd. unfold decode_and_verify_auth_card_query_if_usb_evt.
  now rewrite Hf, Hd.
Qed.

Lemma query_adapter_unknown evt qo q :
  flag evt = true -> decode_manager_query (p_msg evt) = Some q ->
  which_request q <> MANAGER_QUERY_AUTH_CARD_TAG ->
  decode_and_verify_auth_card_query_if_usb_evt (Some evt) (Some qo)
    = (MANAGER_TASK_UNKNOWN_QUERY_REQUEST, Some qo).
Proof.
  intros Hf Hd Hq. unfold decode_and_verify_auth_card_query_if_usb_evt.
  rewrite Hf, Hd. simpl. destruct (which_request q); congruence.
Qed.

Lemma query_adapter_accepts evt qo q :
  flag evt = true -> decode_manager_query (p_msg evt) = Some q ->
  which_request q = MANAGER_QUERY_AUTH_CARD_TAG ->
  decode_and_verify_auth_card_query_if_usb_evt (Some evt) (Some qo)
    = (MANAGER_TASK_SUCCESS, Some q).
Proof.
  intros Hf Hd Hq. unfold decode_and_verify_auth_card_query_if_usb_evt.
  now rewrite Hf, Hd, Hq.
Qed.

(** C7: with the USB flag clear the adapter returns success and the output
    query is as it was; with the flag set it returns
    [MANAGER_TASK_DECODING_FAILED] when the bytes do not decode,
    [MANAGER_TASK_UNKNOWN_QUERY_REQUEST] when the decoded discriminant is not
    the card-authentication tag, and success with the decoded query stored
    otherwise; the output query changes only when the code is success. *)
Theorem C7_query_adapter evt qo :
  (flag evt = false ->
   decode_and_verify_auth_card_query_if_usb_evt (Some evt) (Some qo)
     = (MANAGER_TASK_SUCCESS, Some qo))
  /\ (flag evt = true -> decode_manager_query (p_msg evt) = None ->
      decode_and_verify_auth_card_query_if_usb_evt (Some evt) (Some qo)
        = (MANAGER_TASK_DECODING_FAILED, Some qo))
  /\ (forall q, flag evt = true -> decode_manager_query (p_msg evt) = Some q ->
      which_request q <> MANAGER_QUERY_AUTH_CARD_TAG ->
      decode_and_verify_auth_card_query_if_usb_evt (Some evt) (Some qo)
        = (MANAGER_TASK_UNKNOWN_QUERY_REQUEST, Some qo))
  /\ (forall q, flag evt = true -> decode_manager_query (p_msg evt) = Some q ->
      which_request q = MANAGER_QUERY_AUTH_CARD_TAG ->
      decode_and_verify_auth_card_query_if_usb_evt (Some evt) (Some qo)
        = (MANAGER_TASK_SUCCESS, Some q))
  /\ (snd (decode_and_verify_auth_card_query_if_usb_evt (Some evt) (Some qo))
        <> Some qo ->
      fst (decode_and_verify_auth_card_query_if_usb_evt (Some evt) (Some qo))
        = MANAGER_TASK_SUCCESS).
Proof.
  repeat split.
  - apply query_adapter_no_usb.
  - apply query_adapter_decode_failed.
  - intros q. apply query_adapter_unknown.
  - intros q. apply query_adapter_accepts.
  - unfold decode_and_verify_auth_card_query_if_usb_evt.
    destruct (flag evt); simpl; [| congruence].
    destruct (decode_manager_query (p_msg evt)) as [q |]; simpl; [| congruence].
    destruct (which_request q); simpl; congruence.
Qed.

(** A NULL event or a NULL output is an argument error. *)
Lemma query_adapter_null evt qo :
  evt = None \/ qo = None ->
  decode_and_verify_auth_card_query_if_usb_evt evt qo
    = (MANAGER_TASK_INVALID_ARGS, qo).
Proof. intros H. destruct evt, qo; destruct H; try discriminate; reflexivity. Qed.

(** C9: the result handler called with valid auth-card data and a NULL
    response pointer does not return [MANAGER_TASK_INVALID_ARGS]: in status
    INIT it returns [MANAGER_TASK_INVALID_STATE]; in status CHALLENGE_SIGNED
    with a verified result it first sets the flow status to PAIRING_DONE and
    then writes through the NULL pointer; with both pointers NULL it reads
    through the NULL data pointer. *)
Theorem C9_result_handler_misses_null_response :
  handle_auth_card_result_query (Some {| query := result_query false;
                                         ctx := {| heading := ""; message := "";
                                                   acceptable_cards := 0;
                                                   pair_card_required := false |} |})
      None (start_world MANAGER_AUTH_CARD_STATUS_INIT [])
    = Returns (MANAGER_TASK_INVALID_STATE,
               Some {| query := result_query false;
                       ctx := {| heading := ""; message := "";
                                 acceptable_cards := 0;
                                 pair_card_required := false |} |},
               None)
              (start_world MANAGER_AUTH_CARD_STATUS_INIT [])
  /\ handle_auth_card_result_query (Some {| query := result_query true;
                                            ctx := {| heading := ""; message := "";
                                                      acceptable_cards := 0;
                                                      pair_card_required := false |} |})
      None (start_world MANAGER_AUTH_CARD_STATUS_CHALLENGE_SIGNED [])
    = NullDeref {| flow_status := MANAGER_AUTH_CARD_STATUS_PAIRING_DONE;
                   pending := [];
                   calls := [Call_core_status_set_flow_status
                               MANAGER_AUTH_CARD_STATUS_PAIRING_DONE] |}
  /\ handle_auth_card_result_query None None
       (start_world MANAGER_AUTH_CARD_STATUS_SERIAL_SIGNED [])
    = NullDeref (start_world MANAGER_AUTH_CARD_STATUS_SERIAL_SIGNED []).
Proof. repeat split. Qed.

End AuthCardHandlers.

Lemma sent_messages_app l1 l2 :
  sent_messages (l1 ++ l2) = (sent_messages l1 ++ sent_messages l2)%list.
Proof.
  induction l1 as [| c l1 IH]; simpl; [reflexivity |].
  destruct c; simpl; now rewrite IH.
Qed.

Lemma status_writes_app l1 l2 :
  status_writes (l1 ++ l2) = (status_writes l1 ++ status_writes l2)%list.
Proof.
  induction l1 as [| c l1 IH]; simpl; [reflexivity |].
  destruct c; simpl; now rewrite IH.
Qed.

Lemma usb_waits_app l1 l2 :
  usb_waits (l1 ++ l2) = (usb_waits l1 + usb_waits l2)%nat.
Proof.
  induction l1 as [| c l1 IH]; simpl; [reflexivity |].
  destruct c as [| | | | cfg e | |]; simpl; try assumption.
  destruct cfg; simpl; now rewrite IH.
Qed.

Section AuthCardSteps.
Context {P : Platform}.

(** *** What each request does when it is in order *)

Lemma initiate_in_INIT_card_present d r w e rest :
  flow_status w = MANAGER_AUTH_CARD_STATUS_INIT ->
  auth_card_which_request (auth_card (query d))
    = MANAGER_AUTH_CARD_REQUEST_INITIATE_TAG ->
  pending w = e :: rest ->
  p0_event_flag e = false ->
  let d1 := prepare_card_auth_context d in
  let m2 := snprintf 100 UI_TEXT_PLACE_CARD_TILL_BEEP
              [SIGN_CHALLENGE_BEEP_COUNT (pair_card_required (ctx d1))] in
  handle_auth_card_query (Some d) (Some r) w
    = Returns (MANAGER_TASK_SUCCESS,
               Some (set_ctx (set_message m2 (ctx d1)) d1),
               Some {| which_response :=
                         MANAGER_AUTH_CARD_RESPONSE_SERIAL_SIGNATURE_TAG;
                       flow_complete_dummy_field := flow_complete_dummy_field r |})
        (after_calls w MANAGER_AUTH_CARD_STATUS_SERIAL_SIGNED rest
           [Call_core_status_set_flow_status
              MANAGER_AUTH_CARD_STATUS_USER_CONFIRMED;
            Call_instruction_scr_init (message (ctx d1)) (heading (ctx d1));
            Call_nfc_en_select_card_task;
            Call_get_events EVENT_CONFIG_NFC e;
            Call_core_status_set_flow_status
              MANAGER_AUTH_CARD_STATUS_SERIAL_SIGNED;
            Call_instruction_scr_init m2 (heading (ctx d1))]).
Proof.
  intros Hst Htag Hev Hp0 d1 m2.
  unfold handle_auth_card_query. rewrite Htag.
  unfold handle_auth_card_initiate_query, handle_sign_card_serial.
  unfold_calls. rewrite Hst. world_fields.
  rewrite Hev. cbn [hd tl]. rewrite Hp0. unfold after_calls. world_fields.
  repeat rewrite <- app_assoc. reflexivity.
Qed.

Lemma challenge_in_SERIAL_SIGNED_card_present d r w e rest :
  flow_status w = MANAGER_AUTH_CARD_STATUS_SERIAL_SIGNED ->
  auth_card_which_request (auth_card (query d))
    = MANAGER_AUTH_CARD_REQUEST_CHALLENGE_TAG ->
  pending w = e :: rest ->
  p0_event_flag e = false ->
  let m := if pair_card_required (ctx d)
           then snprintf 100 UI_TEXT_PLACE_CARD_TILL_BEEP [1]
           else snprintf 100 [Lit "..."] [] in
  handle_auth_card_query (Some d) (Some r) w
    = Returns (MANAGER_TASK_SUCCESS,
               Some (set_ctx (set_message m (ctx d)) d),
               Some {| which_response :=
                         MANAGER_AUTH_CARD_RESPONSE_CHALLENGE_SIGNATURE_TAG;
                       flow_complete_dummy_field := flow_complete_dummy_field r |})
        (after_calls w MANAGER_AUTH_CARD_STATUS_CHALLENGE_SIGNED rest
           [Call_nfc_en_select_card_task;
            Call_get_events EVENT_CONFIG_NFC e;
            Call_core_status_set_flow_status
              MANAGER_AUTH_CARD_STATUS_CHALLENGE_SIGNED;
            Call_instruction_scr_init m (heading (ctx d))]).
Proof.
  intros Hst Htag Hev Hp0 m.
  unfold handle_auth_card_query. rewrite Htag.
  unfold handle_auth_card_challenge_query, handle_sign_challenge.
  unfold_calls. rewrite Hst. world_fields.
  rewrite Hev. cbn [hd tl]. rewrite Hp0. unfold after_calls. world_fields.
  repeat rewrite <- app_assoc. subst m.
  destruct (pair_card_required (ctx d)); reflexivity.
Qed.

Lemma result_false_after_signature d r w :
  flow_status w = MANAGER_AUTH_CARD_STATUS_SERIAL_SIGNED
  \/ flow_status w = MANAGER_AUTH_CARD_STATUS_CHALLENGE_SIGNED ->
  auth_card_which_request (auth_card (query d))
    = MANAGER_AUTH_CARD_REQUEST_RESULT_TAG ->
  verified (result (auth_card (query d))) = false ->
  handle_auth_card_query (Some d) (Some r) w
    = Returns (MANAGER_TASK_SUCCESS, Some d, Some flow_complete)
        (after_calls w (flow_status w) (pending w)
           [Call_delay_scr_init ui_text_card_authentication_failed]).
Proof.
  intros Hst Htag Hv.
  unfold handle_auth_card_query. rewrite Htag.
  unfold handle_auth_card_result_query, write_flow_complete.
  unfold_calls. cbn [is_null andb negb]. rewrite Hv. unfold after_calls.
  destruct Hst as [H | H]; rewrite H; cbn; rewrite H; reflexivity.
Qed.

Lemma result_true_in_SERIAL_SIGNED d r w :
  flow_status w = MANAGER_AUTH_CARD_STATUS_SERIAL_SIGNED ->
  auth_card_which_request (auth_card (query d))
    = MANAGER_AUTH_CARD_REQUEST_RESULT_TAG ->
  verified (result (auth_card (query d))) = true ->
  handle_auth_card_query (Some d) (Some r) w
    = Returns (MANAGER_TASK_INVALID_STATE, Some d, Some r) w.
Proof.
  intros Hst Htag Hv.
  unfold handle_auth_card_query. rewrite Htag.
  unfold handle_auth_card_result_query. unfold_calls.
  cbn [is_null andb negb]. now rewrite Hv, Hst.
Qed.

Lemma result_true_in_CHALLENGE_SIGNED d r w :
  flow_status w = MANAGER_AUTH_CARD_STATUS_CHALLENGE_SIGNED ->
  auth_card_which_request (auth_card (query d))
    = MANAGER_AUTH_CARD_REQUEST_RESULT_TAG ->
  verified (result (auth_card (query d))) = true ->
  handle_auth_card_query (Some d) (Some r) w
    = Returns (MANAGER_TASK_SUCCESS, Some d, Some flow_complete)
        (after_calls w MANAGER_AUTH_CARD_STATUS_PAIRING_DONE (pending w)
           [Call_core_status_set_flow_status
              MANAGER_AUTH_CARD_STATUS_PAIRING_DONE;
            Call_delay_scr_init ui_text_card_authentication_success]).
Proof.
  intros Hst Htag Hv.
  unfold handle_auth_card_query. rewrite Htag.
  unfold handle_auth_card_result_query, write_flow_complete.
  unfold_calls. cbn [is_null andb negb]. rewrite Hv, Hst.
  unfold after_calls. cbn [pending calls flow_status negb].
  repeat rewrite <- app_assoc. reflexivity.
Qed.

End AuthCardSteps.

Section AuthCardLoop.
Context {P : Platform}.

(** *** One iteration of the driver loop *)

Lemma loop_dispatch_failed fuel d r w code d' r' w1 :
  handle_auth_card_query (Some d) (Some r) w = Returns (code, d', r') w1 ->
  code <> MANAGER_TASK_SUCCESS ->
  card_auth_loop (S fuel) d r w
    = Returns tt (after_calls w1 (flow_status w1) (pending w1)
                    [Call_usb_clear_event]).
Proof.
  intros Hh Hcode. cbn [card_auth_loop]. unfold bind at 1. rewrite Hh.
  destruct code; try congruence; reflexivity.
Qed.

(** The loop equation: after a successful dispatch the response (if any)
    is sent, the loop is left when the status is PAIRING_DONE, and otherwise
    the next event is awaited and the adapter decides between leaving and
    another iteration.  The P0 flag of the event does not occur in it. *)
Lemma loop_iteration fuel d r w d' r' w1 :
  handle_auth_card_query (Some d) (Some r) w
    = Returns (MANAGER_TASK_SUCCESS, Some d', Some r') w1 ->
  card_auth_loop (S fuel) d r w
    = if manager_auth_card_status_eqb MANAGER_AUTH_CARD_STATUS_PAIRING_DONE
           (flow_status w1)
      then Returns tt (after_calls w1 (flow_status w1) (pending w1)
                         (response_calls r'))
      else
        let e := hd inactivity_timeout (pending w1) in
        let w2 := after_calls w1 (flow_status w1) (tl (pending w1))
                    (response_calls r' ++ [Call_get_events EVENT_CONFIG_USB e]) in
        match decode_and_verify_auth_card_query_if_usb_evt
                (Some (usb_event e)) (Some (query d')) with
        | (MANAGER_TASK_SUCCESS, Some q) =>
            card_auth_loop fuel (set_query q d') (after_send r') w2
        | (MANAGER_TASK_SUCCESS, None) => NullDeref w2
        | (_, _) =>
            Returns tt (after_calls w2 (flow_status w2) (pending w2)
                          [Call_usb_clear_event])
        end.
Proof.
  intros Hh. cbn [card_auth_loop]. unfold bind at 1. rewrite Hh.
  cbn [manager_error_code_eqb negb].
  unfold send_auth_card_response, response_calls, after_send, after_calls.
  destruct w1 as [st evs l]. unfold_calls. world_fields.
  destruct (which_response r') eqn:Hr;
    [| destruct (encode_manager_result _ _) as [b |] ..];
    unfold_calls; world_fields; rewrite ?app_nil_r;
    (destruct (manager_auth_card_status_eqb _ st) eqn:Hpd;
     [reflexivity |]);
    cbn [orb negb]; rewrite ?orb_true_r; repeat rewrite <- app_assoc;
    cbn [app];
    destruct (decode_and_verify_auth_card_query_if_usb_evt _ _)
      as [[] [q |]]; cbn [manager_error_code_eqb negb];
    unfold_calls; world_fields; rewrite ?Hpd; cbn [negb];
    rewrite ?orb_true_r; repeat rewrite <- app_assoc; reflexivity.
Qed.

(** The iteration when a host message of the family arrives. *)
Lemma loop_iteration_next_request fuel d r w d' r' w1 b e rest q :
  handle_auth_card_query (Some d) (Some r) w
    = Returns (MANAGER_TASK_SUCCESS, Some d', Some r') w1 ->
  which_response r' <> MANAGER_AUTH_CARD_RESPONSE_NONE ->
  encode_manager_result (as_result r')
    (MANAGER_AUTH_CARD_RESPONSE_SIZE + 4)%nat = Some b ->
  flow_status w1 <> MANAGER_AUTH_CARD_STATUS_PAIRING_DONE ->
  pending w1 = e :: rest ->
  flag (usb_event e) = true ->
  decode_manager_query (p_msg (usb_event e)) = Some q ->
  which_request q = MANAGER_QUERY_AUTH_CARD_TAG ->
  card_auth_loop (S fuel) d r w
    = card_auth_loop fuel (set_query q d')
        MANAGER_AUTH_CARD_RESPONSE_INIT_ZERO
        (after_calls w1 (flow_status w1) rest
           [Call_usb_send_msg b; Call_get_events EVENT_CONFIG_USB e]).
Proof.
  intros Hh Hr Henc Hst Hev Hflag Hdec Hq.
  rewrite (loop_iteration fuel d r w _ _ _ Hh).
  destruct (manager_auth_card_status_eqb _ (flow_status w1)) eqn:Hpd.
  { apply status_eqb_eq in Hpd. congruence. }
  rewrite Hev. cbn [hd tl]. cbv zeta.
  rewrite (query_adapter_accepts _ _ q Hflag Hdec Hq).
  unfold response_calls, after_send. unfold as_result in Henc. rewrite Henc.
  destruct (which_response r'); [congruence | reflexivity ..].
Qed.

(** The iteration that reaches PAIRING_DONE. *)
Lemma loop_iteration_pairing_done fuel d r w d' r' w1 b :
  handle_auth_card_query (Some d) (Some r) w
    = Returns (MANAGER_TASK_SUCCESS, Some d', Some r') w1 ->
  which_response r' <> MANAGER_AUTH_CARD_RESPONSE_NONE ->
  encode_manager_result (as_result r')
    (MANAGER_AUTH_CARD_RESPONSE_SIZE + 4)%nat = Some b ->
  flow_status w1 = MANAGER_AUTH_CARD_STATUS_PAIRING_DONE ->
  card_auth_loop (S fuel) d r w
    = Returns tt (after_calls w1 MANAGER_AUTH_CARD_STATUS_PAIRING_DONE
                    (pending w1) [Call_usb_send_msg b]).
Proof.
  intros Hh Hr Henc Hst.
  rewrite (loop_iteration fuel d r w _ _ _ Hh). rewrite Hst.
  cbn [manager_auth_card_status_eqb].
  unfold response_calls. unfold as_result in Henc. rewrite Henc.
  destruct (which_response r'); [congruence | reflexivity ..].
Qed.

(** The iteration when the awaited message is not accepted by the
    adapter: the loop is left through [usb_clear_event]. *)
Lemma loop_iteration_message_rejected fuel d r w d' r' w1 e rest :
  handle_auth_card_query (Some d) (Some r) w
    = Returns (MANAGER_TASK_SUCCESS, Some d', Some r') w1 ->
  flow_status w1 <> MANAGER_AUTH_CARD_STATUS_PAIRING_DONE ->
  pending w1 = e :: rest ->
  flag (usb_event e) = true ->
  (decode_manager_query (p_msg (usb_event e)) = None
   \/ exists q, decode_manager_query (p_msg (usb_event e)) = Some q
                /\ which_request q <> MANAGER_QUERY_AUTH_CARD_TAG) ->
  card_auth_loop (S fuel) d r w
    = Returns tt (after_calls w1 (flow_status w1) rest
                    (response_calls r'
                     ++ [Call_get_events EVENT_CONFIG_USB e;
                         Call_usb_clear_event])).
Proof.
  intros Hh Hst Hev Hflag Hbad.
  rewrite (loop_iteration fuel d r w _ _ _ Hh).
  destruct (manager_auth_card_status_eqb _ (flow_status w1)) eqn:Hpd.
  { apply status_eqb_eq in Hpd. congruence. }
  rewrite Hev. cbn [hd tl]. cbv zeta.
  unfold after_calls. world_fields.
  destruct Hbad as [Hd | (q & Hd & Hq)].
  - rewrite (query_adapter_decode_failed _ _ Hflag Hd).
    repeat rewrite <- app_assoc. reflexivity.
  - rewrite (query_adapter_unknown _ _ q Hflag Hd Hq).
    repeat rewrite <- app_assoc. reflexivity.
Qed.

(** The iteration when the wait ends with the P0 event and no host
    message: the loop is not left, the stored query is dispatched again. *)
Lemma loop_iteration_p0_only fuel d r w d' r' w1 e rest :
  handle_auth_card_query (Some d) (Some r) w
    = Returns (MANAGER_TASK_SUCCESS, Some d', Some r') w1 ->
  flow_status w1 <> MANAGER_AUTH_CARD_STATUS_PAIRING_DONE ->
  pending w1 = e :: rest ->
  p0_event_flag e = true ->
  flag (usb_event e) = false ->
  card_auth_loop (S fuel) d r w
    = card_auth_loop fuel d' (after_send r')
        (after_calls w1 (flow_status w1) rest
           (response_calls r' ++ [Call_get_events EVENT_CONFIG_USB e])).
Proof.
  intros Hh Hst Hev Hp0 Hflag.
  rewrite (loop_iteration fuel d r w _ _ _ Hh).
  destruct (manager_auth_card_status_eqb _ (flow_status w1)) eqn:Hpd.
  { apply status_eqb_eq in Hpd. congruence. }
  rewrite Hev. cbn [hd tl]. cbv zeta.
  rewrite (query_adapter_no_usb _ _ Hflag).
  now destruct d'.
Qed.

End AuthCardLoop.

Section AuthCardFlow.
Context {P : Platform}.

(** *** Entering the flow *)

(** C10: for a query whose auth-card sub-type is not the initiate tag the
    handler returns at once, the world (flow-status cell, call log) being
    as before; for an initiate query it writes INIT to the flow-status cell
    and only then enters the dispatch loop, so the run does not depend on
    the status a previous flow left. *)
Theorem C10_handler_entry fuel q w :
  (auth_card_which_request (auth_card q)
     <> MANAGER_AUTH_CARD_REQUEST_INITIATE_TAG ->
   card_auth_handler fuel q w = Returns tt w)
  /\ (auth_card_which_request (auth_card q)
        = MANAGER_AUTH_CARD_REQUEST_INITIATE_TAG ->
      card_auth_handler fuel q w
        = card_auth_loop fuel
            {| query := q;
               ctx := {| heading := ""; message := "";
                         acceptable_cards := to_uint8 ACCEPTABLE_CARDS_ALL;
                         pair_card_required := false |} |}
            MANAGER_AUTH_CARD_RESPONSE_INIT_ZERO
            (after_calls w MANAGER_AUTH_CARD_STATUS_INIT (pending w)
               [Call_core_status_set_flow_status MANAGER_AUTH_CARD_STATUS_INIT])
      /\ forall st,
           card_auth_handler fuel q
             {| flow_status := st; pending := pending w; calls := calls w |}
           = card_auth_handler fuel q w).
Proof.
  unfold card_auth_handler. split.
  - intros Htag.
    destruct (auth_card_which_request (auth_card q)); congruence || reflexivity.
  - intros ->. split; reflexivity.
Qed.

(** *** The initiate request *)

Lemma prepare_card_auth_context_fields d :
  let req := initiate (auth_card (query d)) in
  let d1 := prepare_card_auth_context d in
  acceptable_cards (ctx d1)
    = (if has_card_index req
       then to_uint8 (encode_card_number (card_index req))
       else to_uint8 ACCEPTABLE_CARDS_ALL)
  /\ pair_card_required (ctx d1)
    = (if has_pair_card req then pair_card req else false)
  /\ heading (ctx d1)
    = (if has_card_index req
       then snprintf 30 UI_TEXT_TAP_CARD [to_uint8 (card_index req)]
       else snprintf 30 ui_text_tap_a_card [])
  /\ message (ctx d1)
    = snprintf 100 UI_TEXT_PLACE_CARD_TILL_BEEP
        [SIGN_SERIAL_BEEP_COUNT (pair_card_required (ctx d1))]
  /\ query d1 = query d.
Proof.
  unfold prepare_card_auth_context. cbn zeta.
  destruct (has_card_index _), (has_pair_card _); repeat split.
Qed.

(** C8: an initiate request handled in status INIT writes USER_CONFIRMED to
    the flow-status cell and prepares the context before anything else: the
    acceptable cards are the encoded card number of the requested index when
    one is given and [ACCEPTABLE_CARDS_ALL] otherwise, pairing-required is
    the request's [pair_card] when given and false otherwise, and the
    heading is the tap-card text for the requested index.  The handler then
    goes on to the serial-signing step with that context, shows the heading,
    and returns with these three context fields unchanged.  For
    initiate(card_index=2, pair_card=true) the heading is the tap-card text
    formatted with 2 and pairing-required is true. *)
Theorem C8_initiate_in_INIT d r w :
  flow_status w = MANAGER_AUTH_CARD_STATUS_INIT ->
  let req := initiate (auth_card (query d)) in
  let d1 := prepare_card_auth_context d in
  (acceptable_cards (ctx d1)
     = (if has_card_index req
        then to_uint8 (encode_card_number (card_index req))
        else to_uint8 ACCEPTABLE_CARDS_ALL)
   /\ pair_card_required (ctx d1)
     = (if has_pair_card req then pair_card req else false)
   /\ heading (ctx d1)
     = (if has_card_index req
        then snprintf 30 UI_TEXT_TAP_CARD [to_uint8 (card_index req)]
        else snprintf 30 ui_text_tap_a_card []))
  /\ handle_auth_card_initiate_query (Some d) (Some r) w
     = handle_sign_card_serial (Some d1) (Some r)
         (after_calls w MANAGER_AUTH_CARD_STATUS_USER_CONFIRMED (pending w)
            [Call_core_status_set_flow_status
               MANAGER_AUTH_CARD_STATUS_USER_CONFIRMED])
  /\ (exists code d2 r2 w' more,
        handle_auth_card_initiate_query (Some d) (Some r) w
          = Returns (code, Some d2, Some r2) w'
        /\ calls w'
           = (calls w
              ++ Call_core_status_set_flow_status
                   MANAGER_AUTH_CARD_STATUS_USER_CONFIRMED
              :: Call_instruction_scr_init (message (ctx d1)) (heading (ctx d1))
              :: more)%list
        /\ acceptable_cards (ctx d2) = acceptable_cards (ctx d1)
        /\ pair_card_required (ctx d2) = pair_card_required (ctx d1)
        /\ heading (ctx d2) = heading (ctx d1))
  /\ (has_card_index req = true -> card_index req = 2 ->
      has_pair_card req = true -> pair_card req = true ->
      heading (ctx d1) = snprintf 30 UI_TEXT_TAP_CARD [2]
      /\ pair_card_required (ctx d1) = true
      /\ acceptable_cards (ctx d1) = to_uint8 (encode_card_number 2)).
Proof.
  intros Hst req d1.
  destruct (prepare_card_auth_context_fields d) as (Ha & Hp & Hh & _ & _).
  fold req d1 in Ha, Hp, Hh.
  assert (Hgo : handle_auth_card_initiate_query (Some d) (Some r) w
                = handle_sign_card_serial (Some d1) (Some r)
                    (after_calls w MANAGER_AUTH_CARD_STATUS_USER_CONFIRMED
                       (pending w)
                       [Call_core_status_set_flow_status
                          MANAGER_AUTH_CARD_STATUS_USER_CONFIRMED])).
  { unfold handle_auth_card_initiate_query. unfold_calls.
    rewrite Hst. reflexivity. }
  repeat split; try assumption.
  - rewrite Hgo. unfold handle_sign_card_serial, after_calls.
    unfold_calls. world_fields.
    destruct (p0_event_flag (hd inactivity_timeout (pending w))).
    + do 5 eexists. split; [reflexivity |]. world_fields.
      repeat rewrite <- app_assoc. cbn [app]. repeat split.
    + do 5 eexists. split; [reflexivity |]. world_fields.
      repeat rewrite <- app_assoc. cbn [app]. repeat split.
  - rewrite Hh, H. rewrite H0. reflexivity.
  - rewrite Hp, H1. assumption.
  - rewrite Ha, H, H0. reflexivity.
Qed.

(** *** A failed result after the serial signature *)

(** C1 (amended): in status SERIAL_SIGNED a result request with
    verified=false is answered with success and a flow-complete response,
    the failure notice is shown and the status stays SERIAL_SIGNED.  The
    driver sends the response and, the status not being PAIRING_DONE, waits
    for the next event; when that event is a host message (no P0), the driver
    returns without a further response if the message does not decode or is
    not of the card-authentication family, and otherwise goes into another
    iteration that dispatches the decoded request. *)
Theorem C1_failed_result_after_serial_signed fuel d r w e rest b :
  flow_status w = MANAGER_AUTH_CARD_STATUS_SERIAL_SIGNED ->
  auth_card_which_request (auth_card (query d))
    = MANAGER_AUTH_CARD_REQUEST_RESULT_TAG ->
  verified (result (auth_card (query d))) = false ->
  encode_manager_result (as_result flow_complete)
    (MANAGER_AUTH_CARD_RESPONSE_SIZE + 4)%nat = Some b ->
  pending w = e :: rest ->
  p0_event_flag e = false ->
  flag (usb_event e) = true ->
  let w2 := after_calls w MANAGER_AUTH_CARD_STATUS_SERIAL_SIGNED rest
              [Call_delay_scr_init ui_text_card_authentication_failed;
               Call_usb_send_msg b;
               Call_get_events EVENT_CONFIG_USB e] in
  let stopped := after_calls w2 MANAGER_AUTH_CARD_STATUS_SERIAL_SIGNED rest
                   [Call_usb_clear_event] in
  handle_auth_card_query (Some d) (Some r) w
    = Returns (MANAGER_TASK_SUCCESS, Some d, Some flow_complete)
        (after_calls w MANAGER_AUTH_CARD_STATUS_SERIAL_SIGNED (pending w)
           [Call_delay_scr_init ui_text_card_authentication_failed])
  /\ card_auth_loop (S fuel) d r w
     = match decode_manager_query (p_msg (usb_event e)) with
       | Some q =>
           match which_request q with
           | MANAGER_QUERY_AUTH_CARD_TAG =>
               card_auth_loop fuel (set_query q d)
                 MANAGER_AUTH_CARD_RESPONSE_INIT_ZERO w2
           | _ => Returns tt stopped
           end
       | None => Returns tt stopped
       end.
Proof.
  intros Hst Htag Hv Henc Hev _ Hflag w2 stopped.
  pose proof (result_false_after_signature d r w (or_introl Hst) Htag Hv) as Hh.
  rewrite Hst in Hh. split; [exact Hh |].
  rewrite (loop_iteration fuel d r w _ _ _ Hh).
  subst w2 stopped. unfold after_calls. world_fields.
  cbn [manager_auth_card_status_eqb]. rewrite Hev. cbn [hd tl]. cbv zeta.
  unfold response_calls, after_send. cbn [which_response flow_complete].
  unfold as_result in Henc. cbn [flow_complete] in Henc. rewrite Henc.
  unfold decode_and_verify_auth_card_query_if_usb_evt. rewrite Hflag.
  cbn [negb]. repeat rewrite <- app_assoc. cbn [app].
  destruct (decode_manager_query (p_msg (usb_event e))) as [q |];
    [destruct (which_request q) |]; reflexivity.
Qed.

End AuthCardFlow.

Section AuthCardRuns.
Context {P : Platform}.

Lemma handler_enters_loop_in_INIT fuel q w :
  auth_card_which_request (auth_card q)
    = MANAGER_AUTH_CARD_REQUEST_INITIATE_TAG ->
  card_auth_handler fuel q w
    = card_auth_loop fuel
        {| query := q;
           ctx := {| heading := ""; message := "";
                     acceptable_cards := to_uint8 ACCEPTABLE_CARDS_ALL;
                     pair_card_required := false |} |}
        MANAGER_AUTH_CARD_RESPONSE_INIT_ZERO
        (after_calls w MANAGER_AUTH_CARD_STATUS_INIT (pending w)
           [Call_core_status_set_flow_status MANAGER_AUTH_CARD_STATUS_INIT]).
Proof. intros Htag. unfold card_auth_handler. now rewrite Htag. Qed.

(** C3: a run that gets an initiate request asking for pairing, then a
    challenge request, then a result request with verified=true, with a
    card event (no P0) at each of the two NFC waits, returns; it has sent
    the serial-signature response, the challenge-signature response and
    the flow-complete response, in this order and nothing else; the status
    went INIT, USER_CONFIRMED, SERIAL_SIGNED, CHALLENGE_SIGNED, PAIRING_DONE
    and is PAIRING_DONE at the end; the driver waited for the host twice and
    left the remaining events untouched. *)
Theorem C3_happy_path fuel q w e1 e2 e3 e4 rest qc qr b1 b2 b3 :
  (3 <= fuel)%nat ->
  auth_card_which_request (auth_card q)
    = MANAGER_AUTH_CARD_REQUEST_INITIATE_TAG ->
  has_pair_card (initiate (auth_card q)) = true ->
  pair_card (initiate (auth_card q)) = true ->
  pending w = e1 :: e2 :: e3 :: e4 :: rest ->
  p0_event_flag e1 = false ->
  flag (usb_event e2) = true ->
  decode_manager_query (p_msg (usb_event e2)) = Some qc ->
  which_request qc = MANAGER_QUERY_AUTH_CARD_TAG ->
  auth_card_which_request (auth_card qc)
    = MANAGER_AUTH_CARD_REQUEST_CHALLENGE_TAG ->
  p0_event_flag e3 = false ->
  flag (usb_event e4) = true ->
  decode_manager_query (p_msg (usb_event e4)) = Some qr ->
  which_request qr = MANAGER_QUERY_AUTH_CARD_TAG ->
  auth_card_which_request (auth_card qr)
    = MANAGER_AUTH_CARD_REQUEST_RESULT_TAG ->
  verified (result (auth_card qr)) = true ->
  encode_manager_result (as_result serial_signature)
    (MANAGER_AUTH_CARD_RESPONSE_SIZE + 4)%nat = Some b1 ->
  encode_manager_result (as_result challenge_signature)
    (MANAGER_AUTH_CARD_RESPONSE_SIZE + 4)%nat = Some b2 ->
  encode_manager_result (as_result flow_complete)
    (MANAGER_AUTH_CARD_RESPONSE_SIZE + 4)%nat = Some b3 ->
  exists w',
    card_auth_handler fuel q w = Returns tt w'
    /\ flow_status w' = MANAGER_AUTH_CARD_STATUS_PAIRING_DONE
    /\ pending w' = rest
    /\ sent_messages (calls w') = (sent_messages (calls w) ++ [b1; b2; b3])%list
    /\ status_writes (calls w')
       = (status_writes (calls w)
          ++ [MANAGER_AUTH_CARD_STATUS_INIT;
              MANAGER_AUTH_CARD_STATUS_USER_CONFIRMED;
              MANAGER_AUTH_CARD_STATUS_SERIAL_SIGNED;
              MANAGER_AUTH_CARD_STATUS_CHALLENGE_SIGNED;
              MANAGER_AUTH_CARD_STATUS_PAIRING_DONE])%list
    /\ usb_waits (calls w') = (usb_waits (calls w) + 2)%nat.
Proof.
  intros Hfuel Htag Hhp Hpc Hev Hp1 Hf2 Hd2 Hq2 Hs2 Hp3 Hf4 Hd4 Hq4 Hs4 Hv
    He1 He2 He3.
  destruct fuel as [| [| [| fuel]]]; try lia.
  rewrite (handler_enters_loop_in_INIT _ _ _ Htag).
  (* first iteration: initiate *)
  erewrite loop_iteration_next_request;
    [ | eapply initiate_in_INIT_card_present;
        [reflexivity | exact Htag | exact Hev | exact Hp1]
      | discriminate | exact He1 | discriminate | reflexivity
      | exact Hf2 | exact Hd2 | exact Hq2 ].
  (* second iteration: challenge *)
  erewrite loop_iteration_next_request;
    [ | eapply challenge_in_SERIAL_SIGNED_card_present;
        [reflexivity | exact Hs2 | reflexivity | exact Hp3]
      | discriminate | exact He2 | discriminate | reflexivity
      | exact Hf4 | exact Hd4 | exact Hq4 ].
  (* third iteration: result *)
  erewrite loop_iteration_pairing_done;
    [ | eapply result_true_in_CHALLENGE_SIGNED;
        [reflexivity | exact Hs4 | exact Hv]
      | discriminate | exact He3 | reflexivity ].
  eexists. split; [reflexivity |].
  unfold after_calls. world_fields.
  repeat rewrite sent_messages_app, status_writes_app, usb_waits_app.
  repeat rewrite <- app_assoc. cbn.
  repeat split; try reflexivity; rewrite ?app_nil_r; try reflexivity; lia.
Qed.

(** *** Waiting after a failed result *)

(** After a failed result in status SERIAL_SIGNED, when no host message
    arrives any more, each inactivity timeout starts another iteration that
    dispatches the same result request again: the run is still going after
    any number of iterations, and every iteration sends once more what
    [send_auth_card_response] adds for the flow-complete response. *)
Lemma timeouts_repeat_failed_result fuel d r w :
  flow_status w = MANAGER_AUTH_CARD_STATUS_SERIAL_SIGNED ->
  pending w = [] ->
  auth_card_which_request (auth_card (query d))
    = MANAGER_AUTH_CARD_REQUEST_RESULT_TAG ->
  verified (result (auth_card (query d))) = false ->
  exists w',
    card_auth_loop fuel d r w = OutOfFuel w'
    /\ sent_messages (calls w')
       = (sent_messages (calls w)
          ++ List.concat (repeat (sent_messages (response_calls flow_complete)) fuel))%list.
Proof.
  intros Hst Hev Htag Hv. revert r w Hst Hev.
  induction fuel as [| fuel IH]; intros r w Hst Hev.
  - exists w. split; [reflexivity |]. cbn. now rewrite app_nil_r.
  - pose proof (result_false_after_signature d r w (or_introl Hst) Htag Hv) as Hh.
    rewrite (loop_iteration fuel d r w _ _ _ Hh).
    unfold after_calls at 1 2. world_fields. rewrite Hst, Hev.
    cbn [manager_auth_card_status_eqb hd tl]. cbv zeta.
    rewrite query_adapter_no_usb by reflexivity.
    replace (set_query (query d) d) with d by (now destruct d).
    match goal with
    | |- exists w', card_auth_loop fuel d ?r' ?w2 = _ /\ _ =>
        destruct (IH r' w2) as (w' & Hrun & Hsent); [reflexivity .. |]
    end.
    exists w'. split; [exact Hrun |].
    rewrite Hsent. unfold after_calls. world_fields.
    repeat rewrite sent_messages_app. cbn [repeat List.concat sent_messages].
    rewrite !app_nil_r. now rewrite <- !app_assoc.
Qed.

End AuthCardRuns.

(** *** Concrete runs on the reference platform *)

(** C1 (as stated) fails: with status SERIAL_SIGNED and a result request
    with verified=false being dispatched, the driver does not stop at its
    next check; a challenge request that arrives next is dispatched, its
    response is sent after the flow-complete response and the status becomes
    CHALLENGE_SIGNED. *)
Lemma C1_counterexample_next_request_is_dispatched :
  exists w',
    card_auth_loop (P := sample_platform) 2
      {| query := result_query false;
         ctx := {| heading := "Tap a card"; message := "";
                   acceptable_cards := 15; pair_card_required := false |} |}
      MANAGER_AUTH_CARD_RESPONSE_INIT_ZERO
      (start_world MANAGER_AUTH_CARD_STATUS_SERIAL_SIGNED
         [usb_evt [x01; x02]; nfc_evt; usb_evt []])
    = Returns tt w'
    /\ flow_status w' = MANAGER_AUTH_CARD_STATUS_CHALLENGE_SIGNED
    /\ sent_messages (calls w') = [[x01; x03]; [x01; x02]]
    /\ usb_waits (calls w') = 2%nat.
Proof.
  eexists. split; [vm_compute; reflexivity |].
  repeat split.
Qed.

(** C2: a P0 event while the driver waits for the host does not end the
    loop.  In this run the card signs its serial, the host reports
    verified=false, then the P0 event arrives with no host message: the
    driver dispatches the stored result request again and sends a second
    flow-complete response after the P0 event; it only returns when the next
    message fails to decode. *)
Theorem C2_p0_event_is_followed_by_a_response :
  exists w' before,
    card_auth_handler (P := sample_platform) 3
      (initiate_query true 2 true true)
      (start_world MANAGER_AUTH_CARD_STATUS_INIT
         [nfc_evt; usb_evt [x01; x03; x00]; p0_evt; usb_evt [x05]])
    = Returns tt w'
    /\ calls w'
       = (before
          ++ [Call_get_events EVENT_CONFIG_USB p0_evt;
              Call_delay_scr_init "Card authentication failed";
              Call_usb_send_msg [x01; x03];
              Call_get_events EVENT_CONFIG_USB (usb_evt [x05]);
              Call_usb_clear_event])%list
    /\ sent_messages (calls w') = [[x01; x01]; [x01; x03]; [x01; x03]].
Proof.
  eexists.
  exists [Call_core_status_set_flow_status MANAGER_AUTH_CARD_STATUS_INIT;
          Call_core_status_set_flow_status
            MANAGER_AUTH_CARD_STATUS_USER_CONFIRMED;
          Call_instruction_scr_init "Place card till 3 beep" "Tap card #2";
          Call_nfc_en_select_card_task;
          Call_get_events EVENT_CONFIG_NFC nfc_evt;
          Call_core_status_set_flow_status
            MANAGER_AUTH_CARD_STATUS_SERIAL_SIGNED;
          Call_instruction_scr_init "Place card till 2 beep" "Tap card #2";
          Call_usb_send_msg [x01; x01];
          Call_get_events EVENT_CONFIG_USB (usb_evt [x01; x03; x00]);
          Call_delay_scr_init "Card authentication failed";
          Call_usb_send_msg [x01; x03]].
  split; [vm_compute; reflexivity |].
  split; reflexivity.
Qed.

(* ===================================================================== *)
(** ** The wallet checksum                                                 *)
(* ===================================================================== *)

Lemma checksum_eqb_eq (a b : checksum_t) : checksum_eqb a b = true <-> a = b.
Proof.
  destruct a as [[[a0 a1] a2] a3], b as [[[b0 b1] b2] b3].
  unfold checksum_eqb. rewrite !andb_true_iff. split.
  - intros [[[H0 H1] H2] H3].
    apply byte_dec_bl in H0, H1, H2, H3. congruence.
  - intros H. injection H as -> -> -> ->.
    repeat split; now apply byte_dec_lb.
Qed.

Lemma tagged_byte_is_present (b : byte) :
  N.land (Byte.to_N (byte_of_N (N.lor (N.land (Byte.to_N b) 252) 1))) 3 = 1%N.
Proof. destruct b; vm_compute; reflexivity. Qed.

Section WalletChecksumProperties.
Variable sha256_Raw : list byte -> list byte.

(** A computed checksum always carries the checksum-present tag. *)
Lemma calculate_checksum_present w :
  checksum_present (calculate_checksum sha256_Raw w) = true.
Proof.
  unfold calculate_checksum, checksum_present.
  rewrite tagged_byte_is_present. reflexivity.
Qed.

(** Storing the computed checksum makes the wallet verify. *)
Lemma verify_checksum_of_calculated w c :
  checksum w = c -> c = calculate_checksum sha256_Raw w ->
  verify_checksum sha256_Raw (Some w) = true.
Proof.
  intros Hc Hcalc. unfold verify_checksum. rewrite Hc, Hcalc.
  rewrite calculate_checksum_present. now apply checksum_eqb_eq.
Qed.

(** C5: [verify_checksum] is false on a NULL wallet; on a wallet whose
    checksum-present tag is unset it is true whatever the wallet holds; on a
    wallet with the tag set it is true exactly when the stored checksum is
    the checksum computed over the documented field order. *)
Theorem C5_verify_checksum :
  verify_checksum sha256_Raw None = false
  /\ (forall w, checksum_present (checksum w) = false ->
                verify_checksum sha256_Raw (Some w) = true)
  /\ (forall w, checksum_present (checksum w) = true ->
                (verify_checksum sha256_Raw (Some w) = true
                 <-> checksum w = calculate_checksum sha256_Raw w)).
Proof.
  split; [reflexivity |]. split.
  - intros w Hp. unfold verify_checksum. now rewrite Hp.
  - intros w Hp. unfold verify_checksum. rewrite Hp.
    rewrite checksum_eqb_eq. split; congruence.
Qed.

End WalletChecksumProperties.

(* ===================================================================== *)
(** ** The ETH sign-message back controller                                *)
(* ===================================================================== *)

Lemma all_zero_memzero buf : all_zero (memzero buf) = true.
Proof. induction buf as [| b buf IH]; simpl; [reflexivity | exact IH]. Qed.

Lemma length_memzero buf : List.length (memzero buf) = List.length buf.
Proof. apply length_map. Qed.




Section SignMessageEthProperties.
Context {C : Controllers}.

(** What each case of the back controller does to the globals: the
    confirm-passphrase case zeroes the stored passphrase, leaves mnemonics
    and password hash as they are, and steps back to passphrase entry; the
    PIN and passphrase reject cases zero the screen input text; in all four
    reject cases the credential data handed back is what
    [comm_reject_request] followed by [reset_flow_level] left; any other
    step is left untouched. *)
Lemma back_controller_cases s :
  (level_three s = SIGN_MSG_CONFIRM_PASSPHRASE_ETH ->
   let s' := sign_message_controller_b_eth s in
   all_zero (passphrase (wallet_credential_data s')) = true
   /\ mnemonics (wallet_credential_data s')
      = mnemonics (wallet_credential_data s)
   /\ password_single_hash (wallet_credential_data s')
      = password_single_hash (wallet_credential_data s)
   /\ level_three s' = SIGN_MSG_ENTER_PASSPHRASE_ETH
   /\ input_text s' = input_text s)
  /\ (level_three s = SIGN_MSG_ENTER_PIN_ETH ->
      let s' := sign_message_controller_b_eth s in
      all_zero (input_text s') = true
      /\ next_event_flag s' = true
      /\ wallet_credential_data s'
         = wallet_credential_data
             (reset_flow_level (comm_reject_request USER_REJECT_PIN_INPUT 0 s)))
  /\ (level_three s = SIGN_MSG_ENTER_PASSPHRASE_ETH ->
      let s' := sign_message_controller_b_eth s in
      all_zero (input_text s') = true
      /\ next_event_flag s' = true
      /\ wallet_credential_data s'
         = wallet_credential_data
             (reset_flow_level
                (comm_reject_request USER_REJECTED_PASSPHRASE_INPUT 0 s)))
  /\ (level_three s = SIGN_MSG_VERIFY_COIN_ETH
      \/ level_three s = SIGN_MSG_VERIFY_CONTRACT_ADDRESS_ETH ->
      let s' := sign_message_controller_b_eth s in
      next_event_flag s' = true
      /\ wallet_credential_data s'
         = wallet_credential_data
             (reset_flow_level (comm_reject_request SIGN_MSG_START 0 s)))
  /\ (level_three s = SIGN_MSG_OTHER_STEP_ETH ->
      sign_message_controller_b_eth s = s).
Proof.
  unfold sign_message_controller_b_eth.
  split; [| split; [| split; [| split]]].
  - intros H. rewrite H. cbn. rewrite all_zero_memzero. now repeat split.
  - intros H. rewrite H. cbn. rewrite all_zero_memzero. now repeat split.
  - intros H. rewrite H. cbn. rewrite all_zero_memzero. now repeat split.
  - intros [H | H]; rewrite H; cbn; now split.
  - intros H. now rewrite H.
Qed.


End SignMessageEthProperties.

(* ===================================================================== *)
(** ** Instances on the reference platform                                 *)
(* ===================================================================== *)

Lemma C1_witness :
  card_auth_loop (P := sample_platform) 1
    {| query := result_query false;
       ctx := {| heading := "Tap a card"; message := "";
                 acceptable_cards := 15; pair_card_required := false |} |}
    MANAGER_AUTH_CARD_RESPONSE_INIT_ZERO
    (start_world MANAGER_AUTH_CARD_STATUS_SERIAL_SIGNED [usb_evt [x05]; nfc_evt])
  = Returns tt
      {| flow_status := MANAGER_AUTH_CARD_STATUS_SERIAL_SIGNED;
         pending := [nfc_evt];
         calls := [Call_delay_scr_init "Card authentication failed";
                   Call_usb_send_msg [x01; x03];
                   Call_get_events EVENT_CONFIG_USB (usb_evt [x05]);
                   Call_usb_clear_event] |}.
Proof.
  exact (proj2 (C1_failed_result_after_serial_signed (P := sample_platform) 1
                  {| query := result_query false;
                     ctx := {| heading := "Tap a card"; message := "";
                               acceptable_cards := 15;
                               pair_card_required := false |} |}
                  MANAGER_AUTH_CARD_RESPONSE_INIT_ZERO
                  (start_world MANAGER_AUTH_CARD_STATUS_SERIAL_SIGNED
                     [usb_evt [x05]; nfc_evt])
                  (usb_evt [x05]) [nfc_evt] [x01; x03]
                  eq_refl eq_refl eq_refl eq_refl eq_refl eq_refl eq_refl)).
Defined.

Lemma C3_witness :
  exists w',
    card_auth_handler (P := sample_platform) 3
      (initiate_query true 2 true true)
      (start_world MANAGER_AUTH_CARD_STATUS_PAIRING_DONE
         [nfc_evt; usb_evt [x01; x02]; nfc_evt; usb_evt [x01; x03; x01]; p0_evt])
    = Returns tt w'
    /\ flow_status w' = MANAGER_AUTH_CARD_STATUS_PAIRING_DONE
    /\ pending w' = [p0_evt]
    /\ sent_messages (calls w') = [[x01; x01]; [x01; x02]; [x01; x03]]
    /\ status_writes (calls w')
       = [MANAGER_AUTH_CARD_STATUS_INIT;
          MANAGER_AUTH_CARD_STATUS_USER_CONFIRMED;
          MANAGER_AUTH_CARD_STATUS_SERIAL_SIGNED;
          MANAGER_AUTH_CARD_STATUS_CHALLENGE_SIGNED;
          MANAGER_AUTH_CARD_STATUS_PAIRING_DONE]
    /\ usb_waits (calls w') = 2%nat.
Proof.
  apply (C3_happy_path (P := sample_platform) 3
           (initiate_query true 2 true true)
           (start_world MANAGER_AUTH_CARD_STATUS_PAIRING_DONE
              [nfc_evt; usb_evt [x01; x02]; nfc_evt;
               usb_evt [x01; x03; x01]; p0_evt])
           nfc_evt (usb_evt [x01; x02]) nfc_evt (usb_evt [x01; x03; x01])
           [p0_evt] challenge_query (result_query true)
           [x01; x01] [x01; x02] [x01; x03]);
    solve [reflexivity | lia].
Defined.

Lemma C4_witness :
  handle_auth_card_query (P := sample_platform)
    (Some {| query := initiate_query true 2 true true;
             ctx := {| heading := "Tap card #1"; message := "";
                       acceptable_cards := 1; pair_card_required := false |} |})
    (Some MANAGER_AUTH_CARD_RESPONSE_INIT_ZERO)
    (start_world MANAGER_AUTH_CARD_STATUS_SERIAL_SIGNED [nfc_evt])
  = Returns (MANAGER_TASK_INVALID_STATE,
             Some {| query := initiate_query true 2 true true;
                     ctx := {| heading := "Tap card #1"; message := "";
                               acceptable_cards := 1;
                               pair_card_required := false |} |},
             Some MANAGER_AUTH_CARD_RESPONSE_INIT_ZERO)
      (start_world MANAGER_AUTH_CARD_STATUS_SERIAL_SIGNED [nfc_evt]).
Proof.
  apply (C4_initiate_outside_INIT_is_invalid_state (P := sample_platform));
    [discriminate | reflexivity].
Defined.

Lemma C5_witness :
  verify_checksum sample_digest (Some (sample_wallet (x00, x00, x00, x02)))
    = true
  /\ (verify_checksum sample_digest (Some (sample_wallet (x32, x41, x41, xfd)))
        = true
      <-> (x32, x41, x41, xfd)
          = calculate_checksum sample_digest
              (sample_wallet (x32, x41, x41, xfd))).
Proof.
  destruct (C5_verify_checksum sample_digest) as (_ & Hunset & Hset).
  split.
  - apply (Hunset (sample_wallet (x00, x00, x00, x02))). reflexivity.
  - apply (Hset (sample_wallet (x32, x41, x41, xfd))). reflexivity.
Defined.


Lemma C7_witness :
  decode_and_verify_auth_card_query_if_usb_evt (P := sample_platform)
    (Some {| flag := false; p_msg := [x01; x02] |}) (Some (result_query false))
    = (MANAGER_TASK_SUCCESS, Some (result_query false))
  /\ decode_and_verify_auth_card_query_if_usb_evt (P := sample_platform)
       (Some {| flag := true; p_msg := [x05] |}) (Some (result_query false))
     = (MANAGER_TASK_DECODING_FAILED, Some (result_query false))
  /\ decode_and_verify_auth_card_query_if_usb_evt (P := sample_platform)
       (Some {| flag := true; p_msg := [x02] |}) (Some (result_query false))
     = (MANAGER_TASK_UNKNOWN_QUERY_REQUEST, Some (result_query false))
  /\ decode_and_verify_auth_card_query_if_usb_evt (P := sample_platform)
       (Some {| flag := true; p_msg := [x01; x02] |}) (Some (result_query false))
     = (MANAGER_TASK_SUCCESS, Some challenge_query)
  /\ fst (decode_and_verify_auth_card_query_if_usb_evt (P := sample_platform)
            (Some {| flag := true; p_msg := [x01; x02] |})
            (Some (result_query false)))
     = MANAGER_TASK_SUCCESS.
Proof.
  split; [| split; [| split; [| split]]].
  - apply (proj1 (C7_query_adapter (P := sample_platform)
                    {| flag := false; p_msg := [x01; x02] |}
                    (result_query false))).
    reflexivity.
  - apply (proj1 (proj2 (C7_query_adapter (P := sample_platform)
                           {| flag := true; p_msg := [x05] |}
                           (result_query false))));
      reflexivity.
  - apply (proj1 (proj2 (proj2 (C7_query_adapter (P := sample_platform)
                                  {| flag := true; p_msg := [x02] |}
                                  (result_query false))))
             (mk_query MANAGER_QUERY_OTHER_TAG
                MANAGER_AUTH_CARD_REQUEST_OTHER_TAG false 0 false false false));
      [reflexivity | reflexivity | discriminate].
  - apply (proj1 (proj2 (proj2 (proj2
             (C7_query_adapter (P := sample_platform)
                {| flag := true; p_msg := [x01; x02] |}
                (result_query false)))))
             challenge_query);
      reflexivity.
  - apply (proj2 (proj2 (proj2 (proj2
             (C7_query_adapter (P := sample_platform)
                {| flag := true; p_msg := [x01; x02] |}
                (result_query false)))))).
    discriminate.
Defined.

Lemma C8_witness :
  let d := {| query := initiate_query true 2 true true;
              ctx := {| heading := ""; message := "";
                        acceptable_cards := 15;
                        pair_card_required := false |} |} in
  heading (ctx (prepare_card_auth_context (P := sample_platform) d))
    = "Tap card #2"
  /\ pair_card_required (ctx (prepare_card_auth_context (P := sample_platform) d))
     = true
  /\ acceptable_cards (ctx (prepare_card_auth_context (P := sample_platform) d))
     = 2.
Proof.
  intros d.
  pose proof (C8_initiate_in_INIT (P := sample_platform) d
                MANAGER_AUTH_CARD_RESPONSE_INIT_ZERO
                (start_world MANAGER_AUTH_CARD_STATUS_INIT [nfc_evt])
                eq_refl) as H.
  cbv zeta in H. destruct H as (_ & _ & _ & Hscenario).
  exact (Hscenario eq_refl eq_refl eq_refl eq_refl).
Defined.

Lemma C10_witness :
  card_auth_handler (P := sample_platform) 5 challenge_query
    (start_world MANAGER_AUTH_CARD_STATUS_SERIAL_SIGNED [nfc_evt])
  = Returns tt (start_world MANAGER_AUTH_CARD_STATUS_SERIAL_SIGNED [nfc_evt])
  /\ card_auth_handler (P := sample_platform) 5
       (initiate_query false 0 false false)
       (start_world MANAGER_AUTH_CARD_STATUS_CHALLENGE_SIGNED [p0_evt])
     = card_auth_handler (P := sample_platform) 5
         (initiate_query false 0 false false)
         (start_world MANAGER_AUTH_CARD_STATUS_INIT [p0_evt]).
Proof.
  split.
  - apply (proj1 (C10_handler_entry (P := sample_platform) 5 challenge_query
                    (start_world MANAGER_AUTH_CARD_STATUS_SERIAL_SIGNED
                       [nfc_evt]))).
    discriminate.
  - apply (proj2 (proj2 (C10_handler_entry (P := sample_platform) 5
                           (initiate_query false 0 false false)
                           (start_world MANAGER_AUTH_CARD_STATUS_INIT [p0_evt]))
                    eq_refl)
             MANAGER_AUTH_CARD_STATUS_CHALLENGE_SIGNED).
Defined.

(* ===================================================================== *)
(** * Further properties of the card authentication flow                   *)
(* ===================================================================== *)

Lemma instruction_screens_app l1 l2 :
  instruction_screens (l1 ++ l2)
  = (instruction_screens l1 ++ instruction_screens l2)%list.
Proof.
  induction l1 as [| c l1 IH]; simpl; [reflexivity |].
  destruct c; simpl; now rewrite IH.
Qed.

Ltac close_calls :=
  world_fields; repeat rewrite <- app_assoc;
  first [reflexivity | symmetry; apply app_nil_r].

Section AuthCardDispatch.
Context {P : Platform}.

(** Everything a dispatch with valid pointers can do, in one statement:
    it returns, it only appends to the call log, what it appends contains no
    host message and no wait for the host, the status writes continue
    [status_chain] from the current status, the stored query is kept, the
    events are consumed at most by one, a success comes with a response
    discriminant and a failure leaves the response as it was, and
    PAIRING_DONE is only entered from CHALLENGE_SIGNED by a verified
    result. *)
Lemma dispatch_cases d r w :
  exists code d' r' w' l,
    handle_auth_card_query (Some d) (Some r) w
      = Returns (code, Some d', Some r') w'
    /\ calls w' = (calls w ++ l)%list
    /\ sent_messages l = []
    /\ usb_waits l = 0%nat
    /\ firstn (S (status_rank (flow_status w'))) status_chain
       = (firstn (S (status_rank (flow_status w))) status_chain
          ++ status_writes l)%list
    /\ query d' = query d
    /\ (pending w' = pending w \/ pending w' = tl (pending w))
    /\ (code = MANAGER_TASK_SUCCESS ->
        which_response r' <> MANAGER_AUTH_CARD_RESPONSE_NONE)
    /\ (code <> MANAGER_TASK_SUCCESS -> r' = r)
    /\ (flow_status w' = MANAGER_AUTH_CARD_STATUS_PAIRING_DONE ->
        flow_status w <> MANAGER_AUTH_CARD_STATUS_PAIRING_DONE ->
        flow_status w = MANAGER_AUTH_CARD_STATUS_CHALLENGE_SIGNED
        /\ auth_card_which_request (auth_card (query d))
           = MANAGER_AUTH_CARD_REQUEST_RESULT_TAG
        /\ verified (result (auth_card (query d))) = true
        /\ code = MANAGER_TASK_SUCCESS).
Proof.
  destruct w as [st evs l0].
  unfold handle_auth_card_query, handle_auth_card_initiate_query,
    handle_auth_card_challenge_query, handle_auth_card_result_query,
    handle_sign_card_serial, handle_sign_challenge, write_flow_complete.
  destruct (auth_card_which_request (auth_card (query d))) eqn:Htag;
    destruct st;
    destruct (verified (result (auth_card (query d)))) eqn:Hv;
    destruct (p0_event_flag (hd inactivity_timeout evs)) eqn:Hp0;
    unfold_calls; world_fields; cbn [is_null andb negb];
    rewrite ?Hv; cbn [negb]; cbn beta iota; world_fields;
    rewrite ?Hp0; cbn beta iota; world_fields;
    do 5 eexists;
    (split; [reflexivity |]);
    (split; [close_calls |]);
    world_fields; cbn [query set_ctx prepare_card_auth_context];
    repeat split; try reflexivity; try congruence; auto;
    try (intros; discriminate);
    try (destruct (pair_card_required (ctx d)); reflexivity).
Qed.

End AuthCardDispatch.

Section AuthCardTraces.
Context {P : Platform}.

Lemma response_calls_facts r :
  status_writes (response_calls r) = []
  /\ usb_waits (response_calls r) = 0%nat
  /\ instruction_screens (response_calls r) = []
  /\ (List.length (sent_messages (response_calls r)) <= 1)%nat.
Proof.
  unfold response_calls.
  destruct (which_response r); try destruct (encode_manager_result _ _);
    cbn; repeat split; lia.
Qed.

(** With a valid output pointer the adapter never leaves the output
    NULL. *)
Lemma query_adapter_output e qo :
  exists code q,
    decode_and_verify_auth_card_query_if_usb_evt (Some e) (Some qo)
      = (code, Some q).
Proof.
  unfold decode_and_verify_auth_card_query_if_usb_evt.
  destruct (flag e); cbn; [| eauto].
  destruct (decode_manager_query (p_msg e)) as [q |]; [| eauto].
  destruct (which_request q); eauto.
Qed.

(** What any run of the loop, finished or not, has done. *)
Lemma loop_trace fuel : forall d r w,
  exists l,
    is_null_deref (card_auth_loop fuel d r w) = false
    /\ calls (outcome_world (card_auth_loop fuel d r w)) = (calls w ++ l)%list
    /\ firstn (S (status_rank
                    (flow_status (outcome_world (card_auth_loop fuel d r w)))))
         status_chain
       = (firstn (S (status_rank (flow_status w))) status_chain
          ++ status_writes l)%list
    /\ (List.length (sent_messages l) <= usb_waits l + 1)%nat.
Proof.
  induction fuel as [| fuel IH]; intros d r w.
  - exists []. cbn. rewrite !app_nil_r. repeat split. lia.
  - destruct (dispatch_cases d r w)
      as (code & d' & r' & w1 & l1 & Hh & Hc & Hs & Hu & Hch & _).
    destruct (response_calls_facts r') as (Hrw & Hru & _ & Hrs).
    destruct (manager_error_code_eqb MANAGER_TASK_SUCCESS code) eqn:Hcode.
    + apply error_code_eqb_eq in Hcode. subst code.
      rewrite (loop_iteration fuel d r w _ _ _ Hh).
      destruct (manager_auth_card_status_eqb _ (flow_status w1)) eqn:Hpd.
      * exists (l1 ++ response_calls r')%list.
        cbn [is_null_deref outcome_world]. unfold after_calls. world_fields.
        rewrite Hc, Hch, status_writes_app, sent_messages_app, usb_waits_app,
          Hrw, Hru, Hs, Hu, <- !app_assoc, app_nil_r.
        repeat split. cbn. lia.
      * cbv zeta.
        destruct (query_adapter_output
                    (usb_event (hd inactivity_timeout (pending w1)))
                    (query d')) as (code2 & q & Had).
        rewrite Had.
        destruct (manager_error_code_eqb MANAGER_TASK_SUCCESS code2) eqn:Hc2.
        -- apply error_code_eqb_eq in Hc2. subst code2.
           match goal with
           | |- context [card_auth_loop fuel ?d2 ?r2 ?w2] =>
               destruct (IH d2 r2 w2) as (l2 & Hn & Hcalls & Hchain & Hbound)
           end.
           unfold after_calls in *. world_fields.
           exists (l1 ++ (response_calls r'
                          ++ [Call_get_events EVENT_CONFIG_USB
                                (hd inactivity_timeout (pending w1))])
                      ++ l2)%list.
           split; [exact Hn |]. split; [| split].
           ++ rewrite Hcalls, Hc, <- !app_assoc. reflexivity.
           ++ rewrite Hchain, Hch, !status_writes_app, Hrw, <- !app_assoc.
              reflexivity.
           ++ rewrite !sent_messages_app, !usb_waits_app, !length_app,
                Hs, Hu, Hru. cbn. lia.
        -- exists (l1 ++ (response_calls r'
                          ++ [Call_get_events EVENT_CONFIG_USB
                                (hd inactivity_timeout (pending w1))])
                      ++ [Call_usb_clear_event])%list.
           assert (Hout :
             (let (m, o) := (code2, Some q) in
              match m with
              | MANAGER_TASK_SUCCESS =>
                  match o with
                  | Some q0 =>
                      card_auth_loop fuel (set_query q0 d') (after_send r')
                        (after_calls w1 (flow_status w1) (tl (pending w1))
                           (response_calls r'
                            ++ [Call_get_events EVENT_CONFIG_USB
                                  (hd inactivity_timeout (pending w1))]))
                  | None =>
                      NullDeref
                        (after_calls w1 (flow_status w1) (tl (pending w1))
                           (response_calls r'
                            ++ [Call_get_events EVENT_CONFIG_USB
                                  (hd inactivity_timeout (pending w1))]))
                  end
              | _ =>
                  Returns tt
                    (after_calls
                       (after_calls w1 (flow_status w1) (tl (pending w1))
                          (response_calls r'
                           ++ [Call_get_events EVENT_CONFIG_USB
                                 (hd inactivity_timeout (pending w1))]))
                       (flow_status
                          (after_calls w1 (flow_status w1) (tl (pending w1))
                             (response_calls r'
                              ++ [Call_get_events EVENT_CONFIG_USB
                                    (hd inactivity_timeout (pending w1))])))
                       (pending
                          (after_calls w1 (flow_status w1) (tl (pending w1))
                             (response_calls r'
                              ++ [Call_get_events EVENT_CONFIG_USB
                                    (hd inactivity_timeout (pending w1))])))
                       [Call_usb_clear_event])
              end)
             = Returns tt
                 (after_calls w1 (flow_status w1) (tl (pending w1))
                    ((response_calls r'
                      ++ [Call_get_events EVENT_CONFIG_USB
                            (hd inactivity_timeout (pending w1))])
                     ++ [Call_usb_clear_event]))).
           { unfold after_calls. world_fields. rewrite <- !app_assoc.
             destruct code2; try discriminate; reflexivity. }
           rewrite Hout.
           cbn [is_null_deref outcome_world]. unfold after_calls. world_fields.
           split; [reflexivity |]. split; [| split].
           ++ rewrite Hc, <- !app_assoc. reflexivity.
           ++ rewrite Hch, !status_writes_app, Hrw, <- !app_assoc.
              cbn. now rewrite !app_nil_r.
           ++ rewrite !sent_messages_app, !usb_waits_app, !length_app,
                Hs, Hu, Hru. cbn. lia.
    + assert (Hne : code <> MANAGER_TASK_SUCCESS).
      { intros ->. discriminate. }
      rewrite (loop_dispatch_failed fuel d r w _ _ _ _ Hh Hne).
      exists (l1 ++ [Call_usb_clear_event])%list.
      cbn [is_null_deref outcome_world]. unfold after_calls. world_fields.
      split; [reflexivity |]. split; [| split].
      * rewrite Hc, <- !app_assoc. reflexivity.
      * rewrite Hch, status_writes_app. cbn [status_writes].
        now rewrite app_nil_r.
      * rewrite sent_messages_app, usb_waits_app, length_app, Hs, Hu.
        cbn. lia.
Qed.

End AuthCardTraces.

Lemma length_substring_le n : forall s,
  (String.length (substring 0 n s) <= n)%nat.
Proof.
  induction n as [| n IH]; intros s.
  - destruct s; cbn; lia.
  - destruct s as [| c s]; cbn; [lia |].
    specialize (IH s). lia.
Qed.

Lemma length_snprintf size f args :
  (String.length (snprintf size f args) <= size - 1)%nat.
Proof. unfold snprintf. apply length_substring_le. Qed.

Section AuthCardFurther.
Context {P : Platform}.

(** X1: [send_auth_card_response] refuses a NULL response and a response
    without discriminant with [MANAGER_TASK_INVALID_ARGS], reports
    [MANAGER_TASK_ENCODING_FAILED] when the encoder fails, and in these three
    cases sends nothing; otherwise it hands exactly the encoded bytes of the
    response, wrapped as a card-authentication result, to [usb_send_msg] and
    returns success. *)
Theorem X1_send_auth_card_response_outcomes r w :
  send_auth_card_response None w = Returns MANAGER_TASK_INVALID_ARGS w
  /\ (which_response r = MANAGER_AUTH_CARD_RESPONSE_NONE ->
      send_auth_card_response (Some r) w
        = Returns MANAGER_TASK_INVALID_ARGS w)
  /\ (which_response r <> MANAGER_AUTH_CARD_RESPONSE_NONE ->
      encode_manager_result (as_result r)
        (MANAGER_AUTH_CARD_RESPONSE_SIZE + 4)%nat = None ->
      send_auth_card_response (Some r) w
        = Returns MANAGER_TASK_ENCODING_FAILED w)
  /\ (forall b,
      which_response r <> MANAGER_AUTH_CARD_RESPONSE_NONE ->
      encode_manager_result (as_result r)
        (MANAGER_AUTH_CARD_RESPONSE_SIZE + 4)%nat = Some b ->
      send_auth_card_response (Some r) w
        = Returns MANAGER_TASK_SUCCESS
            (after_calls w (flow_status w) (pending w) [Call_usb_send_msg b])).
Proof.
  unfold send_auth_card_response, as_result.
  split; [reflexivity |]. split; [| split].
  - intros ->. reflexivity.
  - intros Hr Henc. rewrite Henc.
    destruct (which_response r); [congruence | reflexivity ..].
  - intros b Hr Henc. rewrite Henc.
    destruct (which_response r); [congruence | reflexivity ..].
Qed.

(** X2: a dispatch with valid pointers always returns (it never goes
    through a NULL pointer); it only appends to the call log, and what it
    appends contains neither a message to the host nor a wait for the host;
    it keeps the stored query; when it returns success the response has a
    discriminant, and when it returns anything else the response is exactly
    as it was passed in. *)
Theorem X2_dispatch_contract d r w :
  exists code d' r' w' l,
    handle_auth_card_query (Some d) (Some r) w
      = Returns (code, Some d', Some r') w'
    /\ calls w' = (calls w ++ l)%list
    /\ sent_messages l = []
    /\ usb_waits l = 0%nat
    /\ query d' = query d
    /\ (code = MANAGER_TASK_SUCCESS ->
        which_response r' <> MANAGER_AUTH_CARD_RESPONSE_NONE)
    /\ (code <> MANAGER_TASK_SUCCESS -> r' = r).
Proof.
  destruct (dispatch_cases d r w)
    as (code & d' & r' & w' & l & Hh & Hc & Hs & Hu & _ & Hq & _ & Hok & Hf & _).
  exists code, d', r', w', l. repeat split; assumption.
Qed.

(** X9: a dispatch brings the flow status to PAIRING_DONE only from
    CHALLENGE_SIGNED, only for a result request with verified=true, and
    then returns success; no other request and no other status leads
    there. *)
Theorem X9_pairing_done_only_after_verified_challenge d r w :
  exists code d' r' w',
    handle_auth_card_query (Some d) (Some r) w
      = Returns (code, Some d', Some r') w'
    /\ (flow_status w' = MANAGER_AUTH_CARD_STATUS_PAIRING_DONE ->
        flow_status w <> MANAGER_AUTH_CARD_STATUS_PAIRING_DONE ->
        flow_status w = MANAGER_AUTH_CARD_STATUS_CHALLENGE_SIGNED
        /\ auth_card_which_request (auth_card (query d))
           = MANAGER_AUTH_CARD_REQUEST_RESULT_TAG
        /\ verified (result (auth_card (query d))) = true
        /\ code = MANAGER_TASK_SUCCESS).
Proof.
  destruct (dispatch_cases d r w)
    as (code & d' & r' & w' & l & Hh & _ & _ & _ & _ & _ & _ & _ & _ & Hpd).
  exists code, d', r', w'. split; assumption.
Qed.

(** X3: a challenge request outside SERIAL_SIGNED, a result request
    outside SERIAL_SIGNED and CHALLENGE_SIGNED, and a result request with
    verified=true in SERIAL_SIGNED are answered with
    [MANAGER_TASK_INVALID_STATE] and change nothing; the driver then leaves
    through [usb_clear_event] without sending a response. *)
Theorem X3_out_of_order_requests fuel d r w :
  (auth_card_which_request (auth_card (query d))
     = MANAGER_AUTH_CARD_REQUEST_CHALLENGE_TAG
   /\ flow_status w <> MANAGER_AUTH_CARD_STATUS_SERIAL_SIGNED)
  \/ (auth_card_which_request (auth_card (query d))
        = MANAGER_AUTH_CARD_REQUEST_RESULT_TAG
      /\ flow_status w <> MANAGER_AUTH_CARD_STATUS_SERIAL_SIGNED
      /\ flow_status w <> MANAGER_AUTH_CARD_STATUS_CHALLENGE_SIGNED)
  \/ (auth_card_which_request (auth_card (query d))
        = MANAGER_AUTH_CARD_REQUEST_RESULT_TAG
      /\ flow_status w = MANAGER_AUTH_CARD_STATUS_SERIAL_SIGNED
      /\ verified (result (auth_card (query d))) = true) ->
  handle_auth_card_query (Some d) (Some r) w
    = Returns (MANAGER_TASK_INVALID_STATE, Some d, Some r) w
  /\ card_auth_loop (S fuel) d r w
     = Returns tt (after_calls w (flow_status w) (pending w)
                     [Call_usb_clear_event]).
Proof.
  intros Hcase.
  assert (Hh : handle_auth_card_query (Some d) (Some r) w
               = Returns (MANAGER_TASK_INVALID_STATE, Some d, Some r) w).
  { destruct Hcase as [[Htag Hst] | [(Htag & Hs1 & Hs2) | (Htag & Hst & Hv)]].
    - unfold handle_auth_card_query. rewrite Htag.
      now apply challenge_query_outside_SERIAL_SIGNED.
    - unfold handle_auth_card_query. rewrite Htag.
      unfold handle_auth_card_result_query. unfold_calls.
      cbn [is_null andb negb].
      destruct (flow_status w); congruence || reflexivity.
    - now apply result_true_in_SERIAL_SIGNED. }
  split; [exact Hh |].
  now rewrite (loop_dispatch_failed fuel d r w _ _ _ _ Hh) by discriminate.
Qed.

(** X4: a request of the family whose sub-type is none of initiate,
    challenge and result is answered with
    [MANAGER_TASK_UNKNOWN_QUERY_REQUEST] in every status, nothing being
    changed, and the driver leaves through [usb_clear_event] without a
    response. *)
Theorem X4_unknown_sub_request fuel d r w :
  auth_card_which_request (auth_card (query d))
    = MANAGER_AUTH_CARD_REQUEST_OTHER_TAG ->
  handle_auth_card_query (Some d) (Some r) w
    = Returns (MANAGER_TASK_UNKNOWN_QUERY_REQUEST, Some d, Some r) w
  /\ card_auth_loop (S fuel) d r w
     = Returns tt (after_calls w (flow_status w) (pending w)
                     [Call_usb_clear_event]).
Proof.
  intros Htag.
  assert (Hh : handle_auth_card_query (Some d) (Some r) w
               = Returns (MANAGER_TASK_UNKNOWN_QUERY_REQUEST, Some d, Some r) w).
  { unfold handle_auth_card_query. now rewrite Htag. }
  split; [exact Hh |].
  now rewrite (loop_dispatch_failed fuel d r w _ _ _ _ Hh) by discriminate.
Qed.

Lemma initiate_in_INIT_abort d r w :
  flow_status w = MANAGER_AUTH_CARD_STATUS_INIT ->
  auth_card_which_request (auth_card (query d))
    = MANAGER_AUTH_CARD_REQUEST_INITIATE_TAG ->
  p0_event_flag (hd inactivity_timeout (pending w)) = true ->
  let d1 := prepare_card_auth_context d in
  handle_auth_card_query (Some d) (Some r) w
    = Returns (MANAGER_TASK_P0_ABORT_OCCURED, Some d1, Some r)
        (after_calls w MANAGER_AUTH_CARD_STATUS_USER_CONFIRMED
           (tl (pending w))
           [Call_core_status_set_flow_status
              MANAGER_AUTH_CARD_STATUS_USER_CONFIRMED;
            Call_instruction_scr_init (message (ctx d1)) (heading (ctx d1));
            Call_nfc_en_select_card_task;
            Call_get_events EVENT_CONFIG_NFC
              (hd inactivity_timeout (pending w))]).
Proof.
  intros Hst Htag Hp0 d1.
  unfold handle_auth_card_query. rewrite Htag.
  unfold handle_auth_card_initiate_query, handle_sign_card_serial.
  unfold_calls. rewrite Hst. world_fields. rewrite Hp0.
  unfold after_calls. world_fields. repeat rewrite <- app_assoc. reflexivity.
Qed.

(** X5: when the wait for the card after an initiate request ends with
    the P0 event (abort or inactivity), the run of [card_auth_handler] is
    over after one iteration: the status cell holds USER_CONFIRMED, the
    tap-card screen was shown, nothing was sent to the host, and the driver
    left through [usb_clear_event]. *)
Theorem X5_abort_at_card_select fuel q w :
  auth_card_which_request (auth_card q)
    = MANAGER_AUTH_CARD_REQUEST_INITIATE_TAG ->
  p0_event_flag (hd inactivity_timeout (pending w)) = true ->
  let d1 := prepare_card_auth_context
              {| query := q;
                 ctx := {| heading := ""; message := "";
                           acceptable_cards := to_uint8 ACCEPTABLE_CARDS_ALL;
                           pair_card_required := false |} |} in
  card_auth_handler (S fuel) q w
    = Returns tt
        (after_calls w MANAGER_AUTH_CARD_STATUS_USER_CONFIRMED (tl (pending w))
           [Call_core_status_set_flow_status MANAGER_AUTH_CARD_STATUS_INIT;
            Call_core_status_set_flow_status
              MANAGER_AUTH_CARD_STATUS_USER_CONFIRMED;
            Call_instruction_scr_init (message (ctx d1)) (heading (ctx d1));
            Call_nfc_en_select_card_task;
            Call_get_events EVENT_CONFIG_NFC
              (hd inactivity_timeout (pending w));
            Call_usb_clear_event]).
Proof.
  intros Htag Hp0 d1.
  rewrite (handler_enters_loop_in_INIT _ _ _ Htag).
  erewrite loop_dispatch_failed;
    [ | apply initiate_in_INIT_abort; [reflexivity | exact Htag | exact Hp0]
      | discriminate ].
  unfold after_calls. world_fields. repeat rewrite <- app_assoc. reflexivity.
Qed.

(** X6: when the wait for the card during the challenge round ends with
    the P0 event, the challenge handler returns
    [MANAGER_TASK_P0_ABORT_OCCURED] with the status still SERIAL_SIGNED and
    the data and response untouched, and the driver leaves through
    [usb_clear_event] without sending a challenge signature. *)
Theorem X6_abort_at_challenge fuel d r w :
  flow_status w = MANAGER_AUTH_CARD_STATUS_SERIAL_SIGNED ->
  auth_card_which_request (auth_card (query d))
    = MANAGER_AUTH_CARD_REQUEST_CHALLENGE_TAG ->
  p0_event_flag (hd inactivity_timeout (pending w)) = true ->
  let waited := [Call_nfc_en_select_card_task;
                 Call_get_events EVENT_CONFIG_NFC
                   (hd inactivity_timeout (pending w))] in
  handle_auth_card_query (Some d) (Some r) w
    = Returns (MANAGER_TASK_P0_ABORT_OCCURED, Some d, Some r)
        (after_calls w MANAGER_AUTH_CARD_STATUS_SERIAL_SIGNED (tl (pending w))
           waited)
  /\ card_auth_loop (S fuel) d r w
     = Returns tt
         (after_calls w MANAGER_AUTH_CARD_STATUS_SERIAL_SIGNED (tl (pending w))
            (waited ++ [Call_usb_clear_event])).
Proof.
  intros Hst Htag Hp0 waited.
  assert (Hh : handle_auth_card_query (Some d) (Some r) w
               = Returns (MANAGER_TASK_P0_ABORT_OCCURED, Some d, Some r)
                   (after_calls w MANAGER_AUTH_CARD_STATUS_SERIAL_SIGNED
                      (tl (pending w)) waited)).
  { unfold handle_auth_card_query. rewrite Htag.
    unfold handle_auth_card_challenge_query, handle_sign_challenge.
    unfold_calls. rewrite Hst. world_fields. rewrite Hp0.
    unfold after_calls. subst waited. world_fields.
    repeat rewrite <- app_assoc. now rewrite Hst. }
  split; [exact Hh |].
  rewrite (loop_dispatch_failed fuel d r w _ _ _ _ Hh) by discriminate.
  unfold after_calls. world_fields. repeat rewrite <- app_assoc. reflexivity.
Qed.

(** X7: in any run of [card_auth_handler] on an initiate query, finished
    or still going, whatever the events are, the values written to the
    flow-status cell are an initial segment of INIT, USER_CONFIRMED,
    SERIAL_SIGNED, CHALLENGE_SIGNED, PAIRING_DONE ending with the current
    status: the status only moves forward and no value is written twice.
    The run never goes through a NULL pointer. *)
Theorem X7_status_moves_forward fuel q w :
  auth_card_which_request (auth_card q)
    = MANAGER_AUTH_CARD_REQUEST_INITIATE_TAG ->
  exists l,
    is_null_deref (card_auth_handler fuel q w) = false
    /\ calls (outcome_world (card_auth_handler fuel q w)) = (calls w ++ l)%list
    /\ status_writes l
       = firstn (S (status_rank
                      (flow_status (outcome_world (card_auth_handler fuel q w)))))
           status_chain.
Proof.
  intros Htag. rewrite (handler_enters_loop_in_INIT _ _ _ Htag).
  match goal with
  | |- context [card_auth_loop fuel ?d ?r ?w0] =>
      destruct (loop_trace fuel d r w0) as (l & Hn & Hc & Hch & _)
  end.
  exists (Call_core_status_set_flow_status MANAGER_AUTH_CARD_STATUS_INIT :: l).
  split; [exact Hn |]. split.
  - rewrite Hc. unfold after_calls. world_fields.
    now rewrite <- app_assoc.
  - rewrite Hch. reflexivity.
Qed.

(** X8: in any run of [card_auth_handler], finished or still going, the
    number of messages passed to [usb_send_msg] is at most one more than the
    number of waits for the host ([get_events] with the USB configuration,
    timeouts included): an iteration of the loop sends at most one message.
    This bounds the messages by the iterations, not by the requests the host
    made. *)
Theorem X8_one_message_per_iteration fuel q w :
  exists l,
    calls (outcome_world (card_auth_handler fuel q w)) = (calls w ++ l)%list
    /\ (List.length (sent_messages l) <= usb_waits l + 1)%nat.
Proof.
  unfold card_auth_handler.
  destruct (auth_card_which_request (auth_card q)).
  2-4: exists []; cbn; rewrite app_nil_r; split; [reflexivity | lia].
  unfold bind, core_status_set_flow_status.
  match goal with
  | |- context [card_auth_loop fuel ?d ?r ?w0] =>
      destruct (loop_trace fuel d r w0) as (l & Hn & Hc & _ & Hb);
      destruct (card_auth_loop fuel d r w0) eqn:Hrun
  end;
    cbn [outcome_world] in *; world_fields;
    exists (Call_core_status_set_flow_status MANAGER_AUTH_CARD_STATUS_INIT :: l);
    (split; [rewrite Hc; now rewrite <- app_assoc | cbn; exact Hb]).
Qed.

(** X10: [prepare_card_auth_context] builds the whole context from the
    request: nothing of the previous context survives, the query is kept,
    and the texts fit their buffers (heading at most 29 characters, message
    at most 99) whatever the UI texts and the card index are. *)
Theorem X10_prepare_card_auth_context_is_fresh d c :
  ctx (prepare_card_auth_context (set_ctx c d))
    = ctx (prepare_card_auth_context d)
  /\ query (prepare_card_auth_context d) = query d
  /\ (String.length (heading (ctx (prepare_card_auth_context d))) <= 29)%nat
  /\ (String.length (message (ctx (prepare_card_auth_context d))) <= 99)%nat.
Proof.
  unfold prepare_card_auth_context.
  destruct (has_card_index _) eqn:Hci, (has_pair_card _) eqn:Hpc;
    cbn; rewrite ?Hci, ?Hpc; cbn;
    (split; [reflexivity |]); (split; [reflexivity |]);
    split; apply (length_snprintf 30) || apply (length_snprintf 100).
Qed.

End AuthCardFurther.

Section AuthCardFurtherRuns.
Context {P : Platform}.

(** X11: over the run initiate, challenge, result(verified=true) with a
    card event at both NFC waits, whether or not pairing was asked for: the
    run ends in PAIRING_DONE with the three responses sent, and exactly
    three instruction screens were shown, all under the heading prepared
    from the initiate request; their messages count the beeps down (3, 2, 1
    with pairing; 2, 1 and the text "..." without). *)
Theorem X11_happy_path_screens fuel q w e1 e2 e3 e4 rest qc qr b1 b2 b3 :
  (3 <= fuel)%nat ->
  auth_card_which_request (auth_card q)
    = MANAGER_AUTH_CARD_REQUEST_INITIATE_TAG ->
  pending w = e1 :: e2 :: e3 :: e4 :: rest ->
  p0_event_flag e1 = false ->
  flag (usb_event e2) = true ->
  decode_manager_query (p_msg (usb_event e2)) = Some qc ->
  which_request qc = MANAGER_QUERY_AUTH_CARD_TAG ->
  auth_card_which_request (auth_card qc)
    = MANAGER_AUTH_CARD_REQUEST_CHALLENGE_TAG ->
  p0_event_flag e3 = false ->
  flag (usb_event e4) = true ->
  decode_manager_query (p_msg (usb_event e4)) = Some qr ->
  which_request qr = MANAGER_QUERY_AUTH_CARD_TAG ->
  auth_card_which_request (auth_card qr)
    = MANAGER_AUTH_CARD_REQUEST_RESULT_TAG ->
  verified (result (auth_card qr)) = true ->
  encode_manager_result (as_result serial_signature)
    (MANAGER_AUTH_CARD_RESPONSE_SIZE + 4)%nat = Some b1 ->
  encode_manager_result (as_result challenge_signature)
    (MANAGER_AUTH_CARD_RESPONSE_SIZE + 4)%nat = Some b2 ->
  encode_manager_result (as_result flow_complete)
    (MANAGER_AUTH_CARD_RESPONSE_SIZE + 4)%nat = Some b3 ->
  let d1 := prepare_card_auth_context
              {| query := q;
                 ctx := {| heading := ""; message := "";
                           acceptable_cards := to_uint8 ACCEPTABLE_CARDS_ALL;
                           pair_card_required := false |} |} in
  let pair := pair_card_required (ctx d1) in
  let h := heading (ctx d1) in
  exists w',
    card_auth_handler fuel q w = Returns tt w'
    /\ flow_status w' = MANAGER_AUTH_CARD_STATUS_PAIRING_DONE
    /\ sent_messages (calls w') = (sent_messages (calls w) ++ [b1; b2; b3])%list
    /\ instruction_screens (calls w')
       = (instruction_screens (calls w)
          ++ [(snprintf 100 UI_TEXT_PLACE_CARD_TILL_BEEP
                 [SIGN_SERIAL_BEEP_COUNT pair], h);
              (snprintf 100 UI_TEXT_PLACE_CARD_TILL_BEEP
                 [SIGN_CHALLENGE_BEEP_COUNT pair], h);
              (if pair then snprintf 100 UI_TEXT_PLACE_CARD_TILL_BEEP [1]
               else snprintf 100 [Lit "..."] [], h)])%list.
Proof.
  intros Hfuel Htag Hev Hp1 Hf2 Hd2 Hq2 Hs2 Hp3 Hf4 Hd4 Hq4 Hs4 Hv
    He1 He2 He3 d1 pair h.
  destruct fuel as [| [| [| fuel]]]; try lia.
  rewrite (handler_enters_loop_in_INIT _ _ _ Htag).
  erewrite loop_iteration_next_request;
    [ | eapply initiate_in_INIT_card_present;
        [reflexivity | exact Htag | exact Hev | exact Hp1]
      | discriminate | exact He1 | discriminate | reflexivity
      | exact Hf2 | exact Hd2 | exact Hq2 ].
  erewrite loop_iteration_next_request;
    [ | eapply challenge_in_SERIAL_SIGNED_card_present;
        [reflexivity | exact Hs2 | reflexivity | exact Hp3]
      | discriminate | exact He2 | discriminate | reflexivity
      | exact Hf4 | exact Hd4 | exact Hq4 ].
  erewrite loop_iteration_pairing_done;
    [ | eapply result_true_in_CHALLENGE_SIGNED;
        [reflexivity | exact Hs4 | exact Hv]
      | discriminate | exact He3 | reflexivity ].
  eexists. split; [reflexivity |].
  unfold after_calls. world_fields.
  repeat rewrite sent_messages_app, instruction_screens_app.
  cbn [sent_messages instruction_screens app
       ctx query set_query set_ctx set_message heading message
       pair_card_required acceptable_cards].
  rewrite !app_nil_r.
  destruct (prepare_card_auth_context_fields
              {| query := q;
                 ctx := {| heading := ""; message := "";
                           acceptable_cards := to_uint8 ACCEPTABLE_CARDS_ALL;
                           pair_card_required := false |} |})
    as (_ & _ & _ & Hm & _).
  cbv zeta in Hm. fold d1 in Hm |- *. rewrite Hm. fold pair h.
  repeat split; try reflexivity.
  - now rewrite <- !app_assoc.
  - rewrite <- !app_assoc. cbn [app]. destruct pair; reflexivity.
Qed.

(** X12: after the run initiate (card present), result(verified=false),
    when the host sends nothing more, [card_auth_handler] does not return:
    for every bound on the number of loop iterations the run is still
    going. *)
Theorem X12_failed_result_then_silence fuel q w e1 e2 qr :
  auth_card_which_request (auth_card q)
    = MANAGER_AUTH_CARD_REQUEST_INITIATE_TAG ->
  pending w = [e1; e2] ->
  p0_event_flag e1 = false ->
  flag (usb_event e2) = true ->
  decode_manager_query (p_msg (usb_event e2)) = Some qr ->
  which_request qr = MANAGER_QUERY_AUTH_CARD_TAG ->
  auth_card_which_request (auth_card qr)
    = MANAGER_AUTH_CARD_REQUEST_RESULT_TAG ->
  verified (result (auth_card qr)) = false ->
  exists w', card_auth_handler fuel q w = OutOfFuel w'.
Proof.
  intros Htag Hev Hp1 Hf2 Hd2 Hq2 Hs2 Hv.
  rewrite (handler_enters_loop_in_INIT _ _ _ Htag).
  destruct fuel as [| fuel]; [eexists; reflexivity |].
  erewrite loop_iteration;
    [ | eapply initiate_in_INIT_card_present;
        [reflexivity | exact Htag | exact Hev | exact Hp1] ].
  unfold after_calls at 1 2 3. world_fields.
  cbn [manager_auth_card_status_eqb hd tl]. cbv zeta.
  rewrite (query_adapter_accepts _ _ qr Hf2 Hd2 Hq2).
  match goal with
  | |- exists w', card_auth_loop fuel ?d2 ?r2 ?w2 = _ =>
      destruct (timeouts_repeat_failed_result fuel d2 r2 w2)
        as (w' & Hrun & _); [reflexivity | reflexivity | exact Hs2 | exact Hv |]
  end.
  exists w'. exact Hrun.
Qed.

End AuthCardFurtherRuns.

(* ===================================================================== *)
(** * Further properties of the wallet flags and the back controller       *)
(* ===================================================================== *)

(** X13: on a [wallet_info] byte, setting a flag makes its query 1 and
    unsetting makes it 0, in both cases with the other two queries
    unchanged, and the byte stays a byte: the PIN, passphrase and
    arbitrary-data flags are independent. *)
Theorem X13_wallet_info_flags (b : byte) :
  let n := Byte.to_N b in
  let flags m := (WALLET_IS_PIN_SET m, WALLET_IS_PASSPHRASE_SET m,
                  WALLET_IS_ARBITRARY_DATA m) in
  flags (WALLET_SET_PIN n)
    = (1%N, WALLET_IS_PASSPHRASE_SET n, WALLET_IS_ARBITRARY_DATA n)
  /\ flags (WALLET_UNSET_PIN n)
     = (0%N, WALLET_IS_PASSPHRASE_SET n, WALLET_IS_ARBITRARY_DATA n)
  /\ flags (WALLET_SET_PASSPHRASE n)
     = (WALLET_IS_PIN_SET n, 1%N, WALLET_IS_ARBITRARY_DATA n)
  /\ flags (WALLET_UNSET_PASSPHRASE n)
     = (WALLET_IS_PIN_SET n, 0%N, WALLET_IS_ARBITRARY_DATA n)
  /\ flags (WALLET_SET_ARBITRARY_DATA n)
     = (WALLET_IS_PIN_SET n, WALLET_IS_PASSPHRASE_SET n, 1%N)
  /\ flags (WALLET_UNSET_ARBITRARY_DATA n)
     = (WALLET_IS_PIN_SET n, WALLET_IS_PASSPHRASE_SET n, 0%N)
  /\ (N.max (WALLET_SET_PIN n)
        (N.max (WALLET_SET_PASSPHRASE n) (WALLET_SET_ARBITRARY_DATA n))
      <=? 255)%N = true.
Proof. destruct b; vm_compute; repeat split. Qed.

Section SignMessageEthFurther.
Context {C : Controllers}.

(** X14: pressing back at the passphrase confirmation and then again at
    the passphrase entry: the first press wipes the stored passphrase and
    sends nothing to the host, so the reject routines of the second press
    run on a state whose stored passphrase is all zero and whose length is
    unchanged; the second press is the passphrase reject (reject sent, flow
    level reset, input text zeroed, next event requested). *)
Theorem X14_back_twice_from_confirm_passphrase s :
  level_three s = SIGN_MSG_CONFIRM_PASSPHRASE_ETH ->
  let s1 := sign_message_controller_b_eth s in
  let rejected := reset_flow_level
                    (comm_reject_request USER_REJECTED_PASSPHRASE_INPUT 0 s1) in
  all_zero (passphrase (wallet_credential_data s1)) = true
  /\ List.length (passphrase (wallet_credential_data s1))
     = List.length (passphrase (wallet_credential_data s))
  /\ rejections s1 = rejections s
  /\ next_event_flag s1 = next_event_flag s
  /\ sign_message_controller_b_eth s1
     = set_next_event_flag true
         (set_input_text (memzero (input_text rejected)) rejected).
Proof.
  intros H s1 rejected. subst rejected s1.
  unfold sign_message_controller_b_eth. rewrite H. cbn.
  rewrite all_zero_memzero, length_memzero. repeat split.
Qed.

End SignMessageEthFurther.

(* ===================================================================== *)
(** * Further properties of the driver                                     *)
(* ===================================================================== *)

Section AuthCardIndifference.
Context {P : Platform}.

(** Two auth-card data that differ at most in [acceptable_cards] are
    dispatched alike and stay alike. *)
Lemma dispatch_ignores_acceptable_cards d d2 r w :
  query d = query d2 ->
  heading (ctx d) = heading (ctx d2) ->
  message (ctx d) = message (ctx d2) ->
  pair_card_required (ctx d) = pair_card_required (ctx d2) ->
  exists code d' d2' r' w',
    handle_auth_card_query (Some d) (Some r) w
      = Returns (code, Some d', Some r') w'
    /\ handle_auth_card_query (Some d2) (Some r) w
       = Returns (code, Some d2', Some r') w'
    /\ query d' = query d2'
    /\ heading (ctx d') = heading (ctx d2')
    /\ message (ctx d') = message (ctx d2')
    /\ pair_card_required (ctx d') = pair_card_required (ctx d2').
Proof.
  destruct d as [q [h m a p]], d2 as [q2 [h2 m2 a2 p2]].
  cbn [query ctx heading message pair_card_required].
  intros <- <- <- <-.
  destruct w as [st evs l0].
  unfold handle_auth_card_query, handle_auth_card_initiate_query,
    handle_auth_card_challenge_query, handle_auth_card_result_query,
    handle_sign_card_serial, handle_sign_challenge, write_flow_complete,
    prepare_card_auth_context.
  cbn [query ctx heading message pair_card_required acceptable_cards].
  destruct (auth_card_which_request (auth_card q));
    destruct st;
    destruct (verified (result (auth_card q))) eqn:Hv;
    destruct (p0_event_flag (hd inactivity_timeout evs)) eqn:Hp0;
    destruct p;
    unfold_calls; world_fields;
    cbn [query ctx heading message pair_card_required acceptable_cards
         is_null andb negb];
    rewrite ?Hv; cbn [negb]; cbn beta iota; world_fields;
    rewrite ?Hp0; cbn beta iota;
    cbn [query ctx heading message pair_card_required acceptable_cards
         set_ctx set_message set_heading set_acceptable_cards
         set_pair_card_required];
    do 5 eexists; repeat split; reflexivity.
Qed.

Lemma loop_ignores_acceptable_cards fuel : forall d d2 r w,
  query d = query d2 ->
  heading (ctx d) = heading (ctx d2) ->
  message (ctx d) = message (ctx d2) ->
  pair_card_required (ctx d) = pair_card_required (ctx d2) ->
  card_auth_loop fuel d r w = card_auth_loop fuel d2 r w.
Proof.
  induction fuel as [| fuel IH]; intros d d2 r w Hq Hh Hm Hp;
    [reflexivity |].
  destruct (dispatch_ignores_acceptable_cards d d2 r w Hq Hh Hm Hp)
    as (code & d' & d2' & r' & w' & H1 & H2 & Hq' & Hh' & Hm' & Hp').
  destruct (manager_error_code_eqb MANAGER_TASK_SUCCESS code) eqn:Hcode.
  - apply error_code_eqb_eq in Hcode. subst code.
    rewrite (loop_iteration fuel d r w _ _ _ H1),
      (loop_iteration fuel d2 r w _ _ _ H2).
    destruct (manager_auth_card_status_eqb _ (flow_status w'));
      [reflexivity |].
    cbv zeta. rewrite <- Hq'.
    destruct (decode_and_verify_auth_card_query_if_usb_evt _ _)
      as [[] [qn |]]; try reflexivity.
    apply IH; cbn [set_query query ctx]; first [assumption | reflexivity].
  - assert (Hne : code <> MANAGER_TASK_SUCCESS) by (intros ->; discriminate).
    now rewrite (loop_dispatch_failed fuel d r w _ _ _ _ H1 Hne),
      (loop_dispatch_failed fuel d2 r w _ _ _ _ H2 Hne).
Qed.

(** X16: the acceptable-cards entry of the context is written but never
    read: replacing it by any value changes nothing in what the driver loop
    does (calls made, responses sent, status reached, outcome), for every
    script of events and every number of iterations. *)
Theorem X16_acceptable_cards_is_never_read fuel d a r w :
  card_auth_loop fuel (set_ctx (set_acceptable_cards a (ctx d)) d) r w
  = card_auth_loop fuel d r w.
Proof. apply loop_ignores_acceptable_cards; reflexivity. Qed.

(** X15: a failed result is not final.  In status CHALLENGE_SIGNED, a
    result request with verified=false followed by a host message with
    result verified=true makes the driver send flow-complete twice, first
    with the failure notice and then with the success notice, and leave with
    status PAIRING_DONE. *)
Theorem X15_verified_result_after_failed_result fuel d r w e rest qr b :
  flow_status w = MANAGER_AUTH_CARD_STATUS_CHALLENGE_SIGNED ->
  auth_card_which_request (auth_card (query d))
    = MANAGER_AUTH_CARD_REQUEST_RESULT_TAG ->
  verified (result (auth_card (query d))) = false ->
  pending w = e :: rest ->
  flag (usb_event e) = true ->
  decode_manager_query (p_msg (usb_event e)) = Some qr ->
  which_request qr = MANAGER_QUERY_AUTH_CARD_TAG ->
  auth_card_which_request (auth_card qr)
    = MANAGER_AUTH_CARD_REQUEST_RESULT_TAG ->
  verified (result (auth_card qr)) = true ->
  encode_manager_result (as_result flow_complete)
    (MANAGER_AUTH_CARD_RESPONSE_SIZE + 4)%nat = Some b ->
  card_auth_loop (S (S fuel)) d r w
  = Returns tt
      (after_calls w MANAGER_AUTH_CARD_STATUS_PAIRING_DONE rest
         [Call_delay_scr_init ui_text_card_authentication_failed;
          Call_usb_send_msg b;
          Call_get_events EVENT_CONFIG_USB e;
          Call_core_status_set_flow_status
            MANAGER_AUTH_CARD_STATUS_PAIRING_DONE;
          Call_delay_scr_init ui_text_card_authentication_success;
          Call_usb_send_msg b]).
Proof.
  intros Hst Htag Hv Hev Hf Hd Hq Hs Hvr Henc.
  erewrite loop_iteration_next_request;
    [ | apply result_false_after_signature;
        [right; exact Hst | exact Htag | exact Hv]
      | discriminate | exact Henc
      | unfold after_calls; world_fields; rewrite Hst; discriminate
      | exact Hev | exact Hf | exact Hd | exact Hq ].
  erewrite loop_iteration_pairing_done;
    [ | eapply result_true_in_CHALLENGE_SIGNED;
        [unfold after_calls; world_fields; exact Hst | exact Hs | exact Hvr]
      | discriminate | exact Henc | reflexivity ].
  unfold after_calls. world_fields. repeat rewrite <- app_assoc. reflexivity.
Qed.

End AuthCardIndifference.

(* ===================================================================== *)
(** ** Instances of the further properties on the reference platform      *)
(* ===================================================================== *)

Lemma X1_witness :
  send_auth_card_response (P := sample_platform)
    (Some MANAGER_AUTH_CARD_RESPONSE_INIT_ZERO)
    (start_world MANAGER_AUTH_CARD_STATUS_SERIAL_SIGNED [])
  = Returns MANAGER_TASK_INVALID_ARGS
      (start_world MANAGER_AUTH_CARD_STATUS_SERIAL_SIGNED [])
  /\ send_auth_card_response (P := sample_platform_no_encoder)
       (Some flow_complete)
       (start_world MANAGER_AUTH_CARD_STATUS_SERIAL_SIGNED [])
     = Returns MANAGER_TASK_ENCODING_FAILED
         (start_world MANAGER_AUTH_CARD_STATUS_SERIAL_SIGNED [])
  /\ send_auth_card_response (P := sample_platform) (Some flow_complete)
       (start_world MANAGER_AUTH_CARD_STATUS_SERIAL_SIGNED [])
     = Returns MANAGER_TASK_SUCCESS
         {| flow_status := MANAGER_AUTH_CARD_STATUS_SERIAL_SIGNED;
            pending := [];
            calls := [Call_usb_send_msg [x01; x03]] |}.
Proof.
  split; [| split].
  - apply (proj1 (proj2 (X1_send_auth_card_response_outcomes
                           (P := sample_platform)
                           MANAGER_AUTH_CARD_RESPONSE_INIT_ZERO
                           (start_world MANAGER_AUTH_CARD_STATUS_SERIAL_SIGNED
                              [])))).
    reflexivity.
  - apply (proj1 (proj2 (proj2 (X1_send_auth_card_response_outcomes
                                  (P := sample_platform_no_encoder)
                                  flow_complete
                                  (start_world
                                     MANAGER_AUTH_CARD_STATUS_SERIAL_SIGNED
                                     []))))).
    + discriminate.
    + reflexivity.
  - apply (proj2 (proj2 (proj2 (X1_send_auth_card_response_outcomes
                                  (P := sample_platform) flow_complete
                                  (start_world
                                     MANAGER_AUTH_CARD_STATUS_SERIAL_SIGNED
                                     []))))
             [x01; x03]).
    + discriminate.
    + reflexivity.
Defined.

Lemma X2_witness :
  exists code d' r' w' l,
    handle_auth_card_query (P := sample_platform)
      (Some {| query := challenge_query;
               ctx := {| heading := "Tap a card"; message := "";
                         acceptable_cards := 15;
                         pair_card_required := false |} |})
      (Some MANAGER_AUTH_CARD_RESPONSE_INIT_ZERO)
      (start_world MANAGER_AUTH_CARD_STATUS_SERIAL_SIGNED [nfc_evt])
    = Returns (code, Some d', Some r') w'
    /\ calls w' = ([] ++ l)%list
    /\ sent_messages l = []
    /\ usb_waits l = 0%nat
    /\ query d' = challenge_query
    /\ (code = MANAGER_TASK_SUCCESS ->
        which_response r' <> MANAGER_AUTH_CARD_RESPONSE_NONE)
    /\ (code <> MANAGER_TASK_SUCCESS ->
        r' = MANAGER_AUTH_CARD_RESPONSE_INIT_ZERO).
Proof.
  exact (X2_dispatch_contract (P := sample_platform)
           {| query := challenge_query;
              ctx := {| heading := "Tap a card"; message := "";
                        acceptable_cards := 15;
                        pair_card_required := false |} |}
           MANAGER_AUTH_CARD_RESPONSE_INIT_ZERO
           (start_world MANAGER_AUTH_CARD_STATUS_SERIAL_SIGNED [nfc_evt])).
Defined.

Lemma X3_witness :
  card_auth_loop (P := sample_platform) 1
    {| query := challenge_query;
       ctx := {| heading := "Tap a card"; message := "";
                 acceptable_cards := 15; pair_card_required := false |} |}
    MANAGER_AUTH_CARD_RESPONSE_INIT_ZERO
    (start_world MANAGER_AUTH_CARD_STATUS_CHALLENGE_SIGNED [nfc_evt])
  = Returns tt
      {| flow_status := MANAGER_AUTH_CARD_STATUS_CHALLENGE_SIGNED;
         pending := [nfc_evt];
         calls := [Call_usb_clear_event] |}.
Proof.
  apply (proj2 (X3_out_of_order_requests (P := sample_platform) 0
                  {| query := challenge_query;
                     ctx := {| heading := "Tap a card"; message := "";
                               acceptable_cards := 15;
                               pair_card_required := false |} |}
                  MANAGER_AUTH_CARD_RESPONSE_INIT_ZERO
                  (start_world MANAGER_AUTH_CARD_STATUS_CHALLENGE_SIGNED
                     [nfc_evt])
                  (or_introl (conj eq_refl
                     (fun H : MANAGER_AUTH_CARD_STATUS_CHALLENGE_SIGNED
                              = MANAGER_AUTH_CARD_STATUS_SERIAL_SIGNED =>
                        eq_ind MANAGER_AUTH_CARD_STATUS_CHALLENGE_SIGNED
                          (fun s => match s with
                                    | MANAGER_AUTH_CARD_STATUS_CHALLENGE_SIGNED
                                        => True
                                    | _ => False
                                    end) I _ H))))).
Defined.

Lemma X4_witness :
  handle_auth_card_query (P := sample_platform)
    (Some {| query := mk_query MANAGER_QUERY_AUTH_CARD_TAG
                        MANAGER_AUTH_CARD_REQUEST_OTHER_TAG
                        false 0 false false false;
             ctx := {| heading := "Tap a card"; message := "";
                       acceptable_cards := 15; pair_card_required := false |} |})
    (Some MANAGER_AUTH_CARD_RESPONSE_INIT_ZERO)
    (start_world MANAGER_AUTH_CARD_STATUS_SERIAL_SIGNED [])
  = Returns (MANAGER_TASK_UNKNOWN_QUERY_REQUEST,
             Some {| query := mk_query MANAGER_QUERY_AUTH_CARD_TAG
                                MANAGER_AUTH_CARD_REQUEST_OTHER_TAG
                                false 0 false false false;
                     ctx := {| heading := "Tap a card"; message := "";
                               acceptable_cards := 15;
                               pair_card_required := false |} |},
             Some MANAGER_AUTH_CARD_RESPONSE_INIT_ZERO)
      (start_world MANAGER_AUTH_CARD_STATUS_SERIAL_SIGNED []).
Proof.
  apply (proj1 (X4_unknown_sub_request (P := sample_platform) 0
                  {| query := mk_query MANAGER_QUERY_AUTH_CARD_TAG
                                MANAGER_AUTH_CARD_REQUEST_OTHER_TAG
                                false 0 false false false;
                     ctx := {| heading := "Tap a card"; message := "";
                               acceptable_cards := 15;
                               pair_card_required := false |} |}
                  MANAGER_AUTH_CARD_RESPONSE_INIT_ZERO
                  (start_world MANAGER_AUTH_CARD_STATUS_SERIAL_SIGNED [])
                  eq_refl)).
Defined.

Lemma X5_witness :
  card_auth_handler (P := sample_platform) 1 (initiate_query true 2 true true)
    (start_world MANAGER_AUTH_CARD_STATUS_CHALLENGE_SIGNED [p0_evt; nfc_evt])
  = Returns tt
      {| flow_status := MANAGER_AUTH_CARD_STATUS_USER_CONFIRMED;
         pending := [nfc_evt];
         calls := [Call_core_status_set_flow_status
                     MANAGER_AUTH_CARD_STATUS_INIT;
                   Call_core_status_set_flow_status
                     MANAGER_AUTH_CARD_STATUS_USER_CONFIRMED;
                   Call_instruction_scr_init "Place card till 3 beep"
                     "Tap card #2";
                   Call_nfc_en_select_card_task;
                   Call_get_events EVENT_CONFIG_NFC p0_evt;
                   Call_usb_clear_event] |}.
Proof.
  exact (X5_abort_at_card_select (P := sample_platform) 0
           (initiate_query true 2 true true)
           (start_world MANAGER_AUTH_CARD_STATUS_CHALLENGE_SIGNED
              [p0_evt; nfc_evt])
           eq_refl eq_refl).
Defined.

Lemma X6_witness :
  card_auth_loop (P := sample_platform) 1
    {| query := challenge_query;
       ctx := {| heading := "Tap a card"; message := "";
                 acceptable_cards := 15; pair_card_required := false |} |}
    MANAGER_AUTH_CARD_RESPONSE_INIT_ZERO
    (start_world MANAGER_AUTH_CARD_STATUS_SERIAL_SIGNED [])
  = Returns tt
      {| flow_status := MANAGER_AUTH_CARD_STATUS_SERIAL_SIGNED;
         pending := [];
         calls := [Call_nfc_en_select_card_task;
                   Call_get_events EVENT_CONFIG_NFC inactivity_timeout;
                   Call_usb_clear_event] |}.
Proof.
  exact (proj2 (X6_abort_at_challenge (P := sample_platform) 0
                  {| query := challenge_query;
                     ctx := {| heading := "Tap a card"; message := "";
                               acceptable_cards := 15;
                               pair_card_required := false |} |}
                  MANAGER_AUTH_CARD_RESPONSE_INIT_ZERO
                  (start_world MANAGER_AUTH_CARD_STATUS_SERIAL_SIGNED [])
                  eq_refl eq_refl eq_refl)).
Defined.

Lemma X7_witness :
  exists l,
    is_null_deref
      (card_auth_handler (P := sample_platform) 4
         (initiate_query false 0 false false)
         (start_world MANAGER_AUTH_CARD_STATUS_PAIRING_DONE
            [nfc_evt; usb_evt [x01; x02]; p0_evt])) = false
    /\ calls (outcome_world
                (card_auth_handler (P := sample_platform) 4
                   (initiate_query false 0 false false)
                   (start_world MANAGER_AUTH_CARD_STATUS_PAIRING_DONE
                      [nfc_evt; usb_evt [x01; x02]; p0_evt])))
       = ([] ++ l)%list
    /\ status_writes l
       = [MANAGER_AUTH_CARD_STATUS_INIT;
          MANAGER_AUTH_CARD_STATUS_USER_CONFIRMED;
          MANAGER_AUTH_CARD_STATUS_SERIAL_SIGNED].
Proof.
  exact (X7_status_moves_forward (P := sample_platform) 4
           (initiate_query false 0 false false)
           (start_world MANAGER_AUTH_CARD_STATUS_PAIRING_DONE
              [nfc_evt; usb_evt [x01; x02]; p0_evt])
           eq_refl).
Defined.

Lemma X9_witness :
  exists code d' r' w',
    handle_auth_card_query (P := sample_platform)
      (Some {| query := result_query true;
               ctx := {| heading := "Tap a card"; message := "...";
                         acceptable_cards := 15;
                         pair_card_required := false |} |})
      (Some MANAGER_AUTH_CARD_RESPONSE_INIT_ZERO)
      (start_world MANAGER_AUTH_CARD_STATUS_CHALLENGE_SIGNED [])
    = Returns (code, Some d', Some r') w'
    /\ (flow_status w' = MANAGER_AUTH_CARD_STATUS_PAIRING_DONE ->
        MANAGER_AUTH_CARD_STATUS_CHALLENGE_SIGNED
          <> MANAGER_AUTH_CARD_STATUS_PAIRING_DONE ->
        MANAGER_AUTH_CARD_STATUS_CHALLENGE_SIGNED
          = MANAGER_AUTH_CARD_STATUS_CHALLENGE_SIGNED
        /\ MANAGER_AUTH_CARD_REQUEST_RESULT_TAG
           = MANAGER_AUTH_CARD_REQUEST_RESULT_TAG
        /\ true = true
        /\ code = MANAGER_TASK_SUCCESS).
Proof.
  exact (X9_pairing_done_only_after_verified_challenge (P := sample_platform)
           {| query := result_query true;
              ctx := {| heading := "Tap a card"; message := "...";
                        acceptable_cards := 15;
                        pair_card_required := false |} |}
           MANAGER_AUTH_CARD_RESPONSE_INIT_ZERO
           (start_world MANAGER_AUTH_CARD_STATUS_CHALLENGE_SIGNED [])).
Defined.

Lemma X11_witness :
  exists w',
    card_auth_handler (P := sample_platform) 3
      (initiate_query false 0 false false)
      (start_world MANAGER_AUTH_CARD_STATUS_INIT
         [nfc_evt; usb_evt [x01; x02]; nfc_evt; usb_evt [x01; x03; x01]])
    = Returns tt w'
    /\ flow_status w' = MANAGER_AUTH_CARD_STATUS_PAIRING_DONE
    /\ sent_messages (calls w') = [[x01; x01]; [x01; x02]; [x01; x03]]
    /\ instruction_screens (calls w')
       = [("Place card till 2 beep", "Tap a card");
          ("Place card till 1 beep", "Tap a card");
          ("...", "Tap a card")].
Proof.
  apply (X11_happy_path_screens (P := sample_platform) 3
           (initiate_query false 0 false false)
           (start_world MANAGER_AUTH_CARD_STATUS_INIT
              [nfc_evt; usb_evt [x01; x02]; nfc_evt; usb_evt [x01; x03; x01]])
           nfc_evt (usb_evt [x01; x02]) nfc_evt (usb_evt [x01; x03; x01])
           [] challenge_query (result_query true)
           [x01; x01] [x01; x02] [x01; x03]);
    solve [reflexivity | lia].
Defined.

Lemma X12_witness :
  exists w',
    card_auth_handler (P := sample_platform) 7
      (initiate_query true 2 true true)
      (start_world MANAGER_AUTH_CARD_STATUS_INIT
         [nfc_evt; usb_evt [x01; x03; x00]])
    = OutOfFuel w'.
Proof.
  apply (X12_failed_result_then_silence (P := sample_platform) 7
           (initiate_query true 2 true true)
           (start_world MANAGER_AUTH_CARD_STATUS_INIT
              [nfc_evt; usb_evt [x01; x03; x00]])
           nfc_evt (usb_evt [x01; x03; x00]) (result_query false));
    reflexivity.
Defined.

Lemma X14_witness :
  let s1 := sign_message_controller_b_eth (C := sample_controllers)
              (sample_firmware SIGN_MSG_CONFIRM_PASSPHRASE_ETH) in
  all_zero (passphrase (wallet_credential_data s1)) = true
  /\ List.length (passphrase (wallet_credential_data s1)) = 4%nat
  /\ rejections s1 = []
  /\ next_event_flag s1 = false
  /\ rejections (sign_message_controller_b_eth (C := sample_controllers) s1)
     = [(USER_REJECTED_PASSPHRASE_INPUT, 0)].
Proof.
  intros s1.
  pose proof (X14_back_twice_from_confirm_passphrase (C := sample_controllers)
                (sample_firmware SIGN_MSG_CONFIRM_PASSPHRASE_ETH) eq_refl) as H.
  cbv zeta in H. destruct H as (H1 & H2 & H3 & H4 & H5).
  split; [exact H1 |]. split; [exact H2 |]. split; [exact H3 |].
  split; [exact H4 |]. subst s1. rewrite H5. reflexivity.
Defined.

Lemma X15_witness :
  card_auth_loop (P := sample_platform) 2
    {| query := result_query false;
       ctx := {| heading := "Tap a card"; message := "...";
                 acceptable_cards := 15; pair_card_required := false |} |}
    MANAGER_AUTH_CARD_RESPONSE_INIT_ZERO
    (start_world MANAGER_AUTH_CARD_STATUS_CHALLENGE_SIGNED
       [usb_evt [x01; x03; x01]])
  = Returns tt
      {| flow_status := MANAGER_AUTH_CARD_STATUS_PAIRING_DONE;
         pending := [];
         calls := [Call_delay_scr_init "Card authentication failed";
                   Call_usb_send_msg [x01; x03];
                   Call_get_events EVENT_CONFIG_USB (usb_evt [x01; x03; x01]);
                   Call_core_status_set_flow_status
                     MANAGER_AUTH_CARD_STATUS_PAIRING_DONE;
                   Call_delay_scr_init "Card authenticated";
                   Call_usb_send_msg [x01; x03]] |}.
Proof.
  exact (X15_verified_result_after_failed_result (P := sample_platform) 0
           {| query := result_query false;
              ctx := {| heading := "Tap a card"; message := "...";
                        acceptable_cards := 15;
                        pair_card_required := false |} |}
           MANAGER_AUTH_CARD_RESPONSE_INIT_ZERO
           (start_world MANAGER_AUTH_CARD_STATUS_CHALLENGE_SIGNED
              [usb_evt [x01; x03; x01]])
           (usb_evt [x01; x03; x01]) [] (result_query true) [x01; x03]
           eq_refl eq_refl eq_refl eq_refl eq_refl eq_refl eq_refl eq_refl
           eq_refl eq_refl).
Defined.
